(** * sequelize-auto-migrations-ng: the migration-creation script

    A shallow embedding of [bin/makemigration.js] and of the
    diff / sort / generate pipeline it drives.

    - Part I embeds the script itself: its option handling, the nested
      promise chain, the console output and the calls it makes on the
      database and on the [migrate] library.  The library functions are
      taken as parameters of a section, each call either returning or
      throwing.
    - Part II models the pipeline that [lib/migrate] implements, from the
      design document. *)

From stdpp Require Import gmap strings list fin_maps sorting.

(* ================================================================= *)
(** * Part I.  bin/makemigration.js *)
(* ================================================================= *)

(** ** Characters and string helpers of the script's literals *)

Definition chr (n : nat) : string := String (Ascii.ascii_of_nat n) EmptyString.
(** The double quote, the tab and the line feed of the template literals. *)
Definition dq : string := chr 34.
Definition tab : string := chr 9.
Definition nl : string := chr 10.
Definition dash : Ascii.ascii := Ascii.ascii_of_nat 45.

(** [s.split(sep)[0]]: the part of [s] before the first [sep], all of [s]
    when it holds none. *)
Fixpoint split_first (sep : Ascii.ascii) (s : string) : string :=
  match s with
  | EmptyString => EmptyString
  | String c rest =>
      if Ascii.eqb c sep then EmptyString else String c (split_first sep rest)
  end.

(** [s] holds the character [c]. *)
Fixpoint has_char (c : Ascii.ascii) (s : string) : bool :=
  match s with
  | EmptyString => false
  | String d rest => Ascii.eqb d c || has_char c rest
  end.

(** [Array.prototype.join]. *)
Definition join (sep : string) (l : list string) : string := String.concat sep l.

(** ** JavaScript values the script tests for truth *)

(** A [String] option of command-line-args: absent ([undefined], or [null]
    when the flag has no value) or a string.  The empty string is falsy. *)
Definition truthy (o : option string) : bool :=
  match o with
  | Some s => negb (bool_decide (s = ""))
  | None => false
  end.

(** [o || d] and [o ? o : d] on such an option. *)
Definition or_default (o : option string) (d : string) : string :=
  match o with
  | Some s => if bool_decide (s = "") then d else s
  | None => d
  end.

(** ** Exceptions, promises and the process *)

Inductive Exn :=
| ReferenceError (msg : string)
| TypeError (msg : string)
| ExternalError (msg : string).

(** How a promise settles. *)
Inductive Settled (A : Type) :=
| Resolved (a : A)
| Rejected (e : Exn).
Arguments Resolved {A} a.
Arguments Rejected {A} e.

(** How a synchronous library call completes. *)
Inductive Completion (A : Type) :=
| Normal (a : A)
| Throw (e : Exn).
Arguments Normal {A} a.
Arguments Throw {A} e.

(** [x.then(...)] of [Completion]: sequencing of calls that may throw. *)
Definition cbind {A B} (c : Completion A) (k : A → Completion B) : Completion B :=
  match c with
  | Normal a => k a
  | Throw e => Throw e
  end.

(** [revision]: the number [-1] when nothing was executed, else a string. *)
Inductive Revision :=
| RevNone
| RevOf (s : string).

(** The revision as a template literal prints it. *)
Definition revision_str (r : Revision) : string :=
  match r with
  | RevNone => "-1"
  | RevOf s => s
  end.

Inductive QueryType := SELECT | DELETE.

(** The options object of command-line-args. *)
Record Options := {
  opt_preview : bool;
  opt_name : option string;
  opt_comment : option string;
  opt_execute : bool;
  opt_migrations_path : option string;
  opt_models_path : option string;
  opt_verbose : bool;
  opt_debug : bool;
  opt_keep_files : bool;
  opt_help : bool;
  opt_reset_state : option string;
}.

(** One entry of [optionDefinitions]. *)
Record OptionDefinition := {
  od_name : string;
  od_alias : option string;
  od_description : string;
}.

Definition optionDefinitions : list OptionDefinition := [
  {| od_name := "preview"; od_alias := Some "p";
     od_description := "Show migration preview (does not change any files)" |};
  {| od_name := "name"; od_alias := Some "n";
     od_description := "Set migration name (default: " +:+ dq +:+ "noname" +:+ dq +:+ ")" |};
  {| od_name := "comment"; od_alias := Some "c";
     od_description := "Set migration comment" |};
  {| od_name := "execute"; od_alias := Some "x";
     od_description := "Create new migration and execute it" |};
  {| od_name := "migrations-path"; od_alias := None;
     od_description := "The path to the migrations folder" |};
  {| od_name := "models-path"; od_alias := None;
     od_description := "The path to the models folder" |};
  {| od_name := "verbose"; od_alias := Some "v";
     od_description := "Show details about the execution" |};
  {| od_name := "debug"; od_alias := Some "d";
     od_description := "Show error messages to debug problems" |};
  {| od_name := "keep-files"; od_alias := Some "k";
     od_description := "Don't delete previous files from the current revision (requires a unique --name option for each file)" |};
  {| od_name := "help"; od_alias := Some "h";
     od_description := "Show this message" |};
  {| od_name := "reset-state"; od_alias := None;
     od_description := "reset state migration current state of db" |}
].

(** What [migrate.getMigration] returns, with the [commandsDown] the script
    assigns to it afterwards. *)
Record Migration := {
  commandsUp : list string;
  commandsDown : list string;
  consoleOut : list string;
}.

(** [migration.commandsDown = down]. *)
Definition set_commandsDown (m : Migration) (down : list string) : Migration :=
  {| commandsUp := commandsUp m; commandsDown := down; consoleOut := consoleOut m |}.

(** A row of [SequelizeMeta]. *)
Record MetaRow := { row_name : string }.

(** What [migrate.writeMigration] returns: [{ filename, info: { name } }]. *)
Record WriteInfo := {
  filename : string;
  info_name : string;
}.

(** The row the script inserts into [SequelizeMetaMigrations]. *)
Record StateRecord := {
  rec_revision : Revision;
  rec_name : string;
  rec_state : string;
}.

(** The calls that return a promise. *)
Inductive Call :=
| CreateTable (table : string)
| SequelizeQuery (sql : string) (type : QueryType)
| PruneOldMigFiles (revision : Revision) (migrationsDir : string)
| BulkInsert (table : string) (rows : list StateRecord).

(** What a run does that can be seen from outside, in order. *)
Inductive Event :=
| ConsoleLog (line : string)
| ConsoleError (e : Exn)
| Invoke (c : Call)
| Rejection (c : Call) (e : Exn)
| WriteMigration (revision : Revision) (m : Migration)
    (migrationsDir name comment : string).

(** How a run ends: [process.exit(code)]; nothing left to run (no exit call
    was reached); or a rejection that no handler takes. *)
Inductive Outcome :=
| Exited (code : Z)
| Drained
| Unhandled (e : Exn).

Definition Run : Type := list Event * Outcome.

(** ** The body of a callback *)

(** A callback runs to its end, throws, or leaves the process. *)
Inductive Step (A : Type) :=
| Val (a : A)
| Thrown (e : Exn)
| Exit (code : Z).
Arguments Val {A} a.
Arguments Thrown {A} e.
Arguments Exit {A} code.

Definition Sync (A : Type) : Type := list Event * Step A.

Definition sret {A} (a : A) : Sync A := ([], Val a).

Definition sbind {A B} (m : Sync A) (k : A → Sync B) : Sync B :=
  match m with
  | (tr, Val a) => let '(tr', s) := k a in (tr ++ tr', s)
  | (tr, Thrown e) => (tr, Thrown e)
  | (tr, Exit c) => (tr, Exit c)
  end.

#[global] Instance sync_ret : MRet Sync := @sret.
#[global] Instance sync_bind : MBind Sync := λ A B k m, sbind m k.

Definition emit (e : Event) : Sync unit := ([e], Val tt).
Definition console_log (line : string) : Sync unit := emit (ConsoleLog line).
Definition console_error (e : Exn) : Sync unit := emit (ConsoleError e).
Definition throw {A} (e : Exn) : Sync A := ([], Thrown e).
Definition process_exit {A} (code : Z) : Sync A := ([], Exit code).

(** A synchronous library call inside a callback. *)
Definition call {A} (c : Completion A) : Sync A :=
  match c with
  | Normal a => sret a
  | Throw e => throw e
  end.

(** [if (c) body]. *)
Definition when (c : bool) (body : Sync unit) : Sync unit :=
  if c then body else sret tt.

(** [_.each(l, f)] and [forEach]. *)
Fixpoint each {A} (l : list A) (f : A → Sync unit) : Sync unit :=
  match l with
  | [] => sret tt
  | x :: rest => sbind (f x) (λ _, each rest f)
  end.

(** Starting an operation that returns a promise: the call is seen, and
    its rejection when it settles so. *)
Definition start {A} (c : Call) (r : Settled A) : Sync (Settled A) :=
  match r with
  | Resolved _ => ([Invoke c], Val r)
  | Rejected e => ([Invoke c; Rejection c e], Val r)
  end.

(** The run of a handler given to [.catch]: a handler that throws leaves a
    rejected promise nobody handles. *)
Definition run_handler (h : Exn → Sync unit) (e : Exn) : Run :=
  match h e with
  | (tr, Val _) => (tr, Drained)
  | (tr, Thrown e') => (tr, Unhandled e')
  | (tr, Exit c) => (tr, Exited c)
  end.

Definition prepend (tr : list Event) (r : Run) : Run := (tr ++ r.1, r.2).

(** [p.then(cb).catch(h)].  The callback's value is the chain it started
    as its last statement, which runs once the callback has returned; that
    chain is not returned to [then], so [h] sees only what [p] rejects with
    and what [cb] itself throws. *)
Definition then_catch {A} (p : Settled A) (cb : A → Sync Run)
    (h : Exn → Sync unit) : Run :=
  match p with
  | Rejected e => run_handler h e
  | Resolved a =>
      match cb a with
      | (tr, Val k) => prepend tr k
      | (tr, Thrown e) => prepend tr (run_handler h e)
      | (tr, Exit c) => (tr, Exited c)
      end
  end.

(** [p.then(cb)] with no [catch] behind it. *)
Definition then_only {A} (p : Settled A) (cb : A → Sync Run) : Run :=
  match p with
  | Rejected e => ([], Unhandled e)
  | Resolved a =>
      match cb a with
      | (tr, Val k) => prepend tr k
      | (tr, Thrown e) => (tr, Unhandled e)
      | (tr, Exit c) => (tr, Exited c)
      end
  end.

(** The script from its first statement: the synchronous part, then the
    chain it started. *)
Definition run_script (s : Sync Run) : Run :=
  match s with
  | (tr, Val k) => prepend tr k
  | (tr, Thrown e) => (tr, Unhandled e)
  | (tr, Exit c) => (tr, Exited c)
  end.

(** ** What a run leaves behind *)

(** The calls that change the migration files or the rows of
    [SequelizeMetaMigrations]: pruning, writing the migration, the DELETE
    and the bulk insert. *)
Definition persists (e : Event) : bool :=
  match e with
  | Invoke (PruneOldMigFiles _ _) => true
  | Invoke (SequelizeQuery _ DELETE) => true
  | Invoke (BulkInsert _ _) => true
  | WriteMigration _ _ _ _ _ => true
  | _ => false
  end.

(** [console.log(line)]. *)
Definition logs (line : string) (e : Event) : bool :=
  match e with
  | ConsoleLog l => bool_decide (l = line)
  | _ => false
  end.

(** [console.error]. *)
Definition error_output (e : Event) : bool :=
  match e with
  | ConsoleError _ => true
  | _ => false
  end.

(** The steps of the promise chain that have a [.catch] behind them: the
    creation of the two meta tables, the queries (the two SELECTs and the
    DELETE) and the bulk insert. *)
Definition chain_step (c : Call) : bool :=
  match c with
  | CreateTable _ => true
  | SequelizeQuery _ _ => true
  | BulkInsert _ _ => true
  | PruneOldMigFiles _ _ => false
  end.

(** A callback's body as a specification reads it: every event of its
    synchronous part satisfies [P], and its value, when it has one,
    satisfies [Q]. *)
Definition sync_sat {A} (P : Event → Prop) (Q : A → Prop) (s : Sync A) : Prop :=
  Forall P s.1 ∧ ∀ a, s.2 = Val a → Q a.

(** Every event of a run satisfies [P]. *)
Definition run_sat (P : Event → Prop) (r : Run) : Prop := Forall P r.1.

(** No chain step is rejected by this event. *)
Definition calm (ev : Event) : Prop :=
  ∀ c e, ev = Rejection c e → chain_step c = false.

(** A rejection of a chain step is swallowed: once one is seen, the run
    ends with nothing left to do. *)
Definition swallows (r : Run) : Prop :=
  ∀ c e, chain_step c = true → In (Rejection c e) r.1 → r.2 = Drained.

(** The same for a callback: a chain step rejected in its synchronous part
    leaves the empty run behind, and its continuation swallows. *)
Definition sync_swallows (s : Sync Run) : Prop :=
  (∀ c e, chain_step c = true → In (Rejection c e) s.1 → s.2 = Val ([], Drained))
  ∧ ∀ k, s.2 = Val k → swallows k.

(** A run that leaves the process does so with status 0. *)
Definition exits_zero (r : Run) : Prop := ∀ code, r.2 = Exited code → code = 0%Z.

(** The same for a callback and the chain it starts. *)
Definition sync_exits_zero (s : Sync Run) : Prop :=
  (∀ code, s.2 = Exit code → code = 0%Z) ∧ ∀ k, s.2 = Val k → exits_zero k.

(** ** The steps of a run *)

(** The kinds of call a run makes on the database and on the migration
    files. *)
Inductive Kind := KCreateTable | KSelect | KPrune | KWrite | KDelete | KInsert.

#[global] Instance Kind_eq_dec : EqDecision Kind.
Proof. solve_decision. Defined.

Definition kind_of (ev : Event) : option Kind :=
  match ev with
  | Invoke (CreateTable _) => Some KCreateTable
  | Invoke (SequelizeQuery _ SELECT) => Some KSelect
  | Invoke (SequelizeQuery _ DELETE) => Some KDelete
  | Invoke (PruneOldMigFiles _ _) => Some KPrune
  | Invoke (BulkInsert _ _) => Some KInsert
  | WriteMigration _ _ _ _ _ => Some KWrite
  | ConsoleLog _ | ConsoleError _ | Rejection _ _ => None
  end.

(** The calls of a trace, in order. *)
Definition kinds (tr : list Event) : list Kind := omap kind_of tr.

(** The errors [console.error] printed, in order. *)
Definition error_of (ev : Event) : option Exn :=
  match ev with
  | ConsoleError e => Some e
  | _ => None
  end.

(** The rejection of a chain step. *)
Definition chain_rejection_of (ev : Event) : option (Call * Exn) :=
  match ev with
  | Rejection c e => if chain_step c then Some (c, e) else None
  | _ => None
  end.

(** The rows handed to a bulk insert, and the migration handed to
    [writeMigration] with its revision. *)
Definition insert_of (ev : Event) : option (string * list StateRecord) :=
  match ev with
  | Invoke (BulkInsert table rows) => Some (table, rows)
  | _ => None
  end.

Definition write_of (ev : Event) : option Event :=
  match ev with
  | WriteMigration _ _ _ _ _ => Some ev
  | _ => None
  end.

(** ** The script *)

Section Makemigration.

(** [currentState.tables] and the elements of the action arrays are the
    library's own; the script only passes them on. *)
Variables Tables Action : Type.

(** A saved state, as [lastMigration.state] gives it, and [currentState]. *)
Record SavedState := { tables : Tables }.
Record StateRow := { row_state : SavedState }.
Record CurrentState := { cur_tables : Tables; cur_revision : Revision }.

(** [lib/migrate], whose code the script calls: each function returns or
    throws, [pruneOldMigFiles] returns a promise.  [sortActions] sorts its
    array in place: its value here is the array after the call.  The
    functions are taken to leave everything else they are given as it
    is. *)
Record Migrate := {
  reverseModels : Completion Tables;
  parseDifference : Tables → Tables → Completion (list Action);
  sortActions : list Action → Completion (list Action);
  getMigration : list Action → Completion Migration;
  pruneOldMigFiles : Revision → string → Options → Settled unit;
  writeMigration :
    Revision → Migration → string → string → string → Completion WriteInfo;
}.

(** What the script's other modules and the database answer. *)
Record Host := {
  (** [process.env.PWD || process.cwd()] *)
  cwd : string;
  path_join : string → string → string;
  (** [moment().format('YYYYMMDDHHmmss')] *)
  now : string;
  (** [js_beautify] *)
  beautify : string → string;
  JSON_stringify : CurrentState → string;
  (** [queryInterface.createTable(table, ...)] *)
  createTable : string → Settled unit;
  (** [sequelize.query(sql, { type })], by the statement sent *)
  select_name : string → Settled (list MetaRow);
  select_state : string → Settled (list StateRow);
  delete_where : string → Settled unit;
  (** [queryInterface.bulkInsert(table, rows)] *)
  bulkInsert : string → list StateRecord → Settled unit;
}.

Variable migrate : Migrate.
Variable host : Host.
Variable options : Options.
(** The [tables: {}] of the initial [previousState]. *)
Variable no_tables : Tables.

(** Lines 47-54: the usage text. *)
Definition usage_line (option : OptionDefinition) : string :=
  let alias :=
    match od_alias option with
    | Some a => if bool_decide (a = "") then tab else " (-" +:+ a +:+ ")"
    | None => tab
    end in
  tab +:+ " --" +:+ od_name option +:+ alias +:+ " " +:+ tab
      +:+ od_description option.

Definition show_help : Sync Run :=
  console_log ("Sequelize migration creation tool" +:+ nl +:+ nl +:+ "Usage:");;
  each optionDefinitions (λ option, console_log (usage_line option));;
  process_exit 0.

(** Lines 56-58. *)
Definition migrationsDir : string :=
  path_join host (cwd host) (or_default (opt_migrations_path options) "migrations").
Definition modelsDir : string :=
  path_join host (cwd host) (or_default (opt_models_path options) "models").
Definition resetState : option string := opt_reset_state options.

(** The statements sent to the database. *)
Definition sql_last_executed : string :=
  "SELECT name FROM " +:+ dq +:+ "SequelizeMeta" +:+ dq +:+ " ORDER BY "
    +:+ dq +:+ "name" +:+ dq +:+ " desc limit 1".

Definition sql_state_of (revision : Revision) : string :=
  "SELECT state FROM " +:+ dq +:+ "SequelizeMetaMigrations" +:+ dq +:+ " where "
    +:+ dq +:+ "revision" +:+ dq +:+ " = '" +:+ revision_str revision +:+ "'".

Definition sql_delete_states (sign : string) (revision : Revision) : string :=
  "DELETE FROM " +:+ dq +:+ "SequelizeMetaMigrations" +:+ dq +:+ " where "
    +:+ dq +:+ "revision" +:+ dq +:+ " " +:+ sign +:+ " '"
    +:+ revision_str revision +:+ "'".

(** The handler every [.catch] of the script is given. *)
Definition handler (err : Exn) : Sync unit :=
  when (opt_debug options) (console_error err).

(** Line 108. *)
Definition revision_of (lastExecutedMigration : option MetaRow) : Revision :=
  match lastExecutedMigration with
  | None => RevNone
  | Some row => RevOf (split_first dash (row_name row))
  end.

(** Lines 115-117: the tables of [previousState]. *)
Definition previous_tables (lastMigration : option StateRow) : Tables :=
  match lastMigration with
  | Some row => if negb (truthy resetState) then tables (row_state row) else no_tables
  | None => no_tables
  end.

(** Lines 121-125. *)
Definition current_revision (revision : Revision) : Revision :=
  if truthy resetState then revision else RevOf (now host).

(** Lines 127-138: both differences, both sorts, both generations, and the
    reverse commands taken from the second generation. *)
Definition assemble (previous current : Tables) : Completion Migration :=
  cbind (parseDifference migrate previous current) (λ actions,
  cbind (parseDifference migrate current previous) (λ downActions,
  cbind (sortActions migrate actions) (λ actions,
  cbind (sortActions migrate downActions) (λ downActions,
  cbind (getMigration migrate actions) (λ migration,
  cbind (getMigration migrate downActions) (λ tmp,
  Normal (set_commandsDown migration (commandsUp tmp)))))))).

(** [generate(sort(diff(source, target)))]. *)
Definition pipeline (source target : Tables) : Completion Migration :=
  cbind (parseDifference migrate source target) (λ actions,
  cbind (sortActions migrate actions) (λ actions,
  getMigration migrate actions)).

(** Lines 148-154. *)
Definition render (commands : list string) : string :=
  beautify host ("[ " +:+ nl +:+ join (", " +:+ nl) commands +:+ " " +:+ nl
                   +:+ "];" +:+ nl).

Definition show_preview (migration : Migration) : Sync Run :=
  console_log "Migration result:";;
  console_log (render (commandsUp migration));;
  console_log "Undo commands:";;
  console_log (render (commandsDown migration));;
  process_exit 0.

(** Lines 184-193, the callback of the bulk insert.  Line 191 reads [info],
    which is declared inside the [else] block of lines 160-171 and is not in
    scope here. *)
Definition afterBulkInsert (name : string) (_ : unit) : Sync Run :=
  when (truthy resetState)
    (console_log ("Reset state to latest migration of '" +:+ name
                    +:+ "' has been successfull"));;
  when (opt_verbose options) (console_log "Updated state on DB.");;
  if opt_execute options then throw (ReferenceError "info is not defined")
  else process_exit 0.

(** Lines 182-194, the callback of the DELETE. *)
Definition afterDelete (name : string) (rows : list StateRecord) (_ : unit)
    : Sync Run :=
  p ← start (BulkInsert "SequelizeMetaMigrations" rows)
        (bulkInsert host "SequelizeMetaMigrations" rows);
  mret (then_catch p (afterBulkInsert name) handler).

(** Lines 156-196, the callback of [pruneOldMigFiles]. *)
Definition afterPrune (lastExecutedMigration : option MetaRow)
    (revision : Revision) (currentState : CurrentState) (migration : Migration)
    (_ : unit) : Sync Run :=
  name ←
    (if truthy resetState then
       match lastExecutedMigration with
       | Some row => mret (row_name row)
       | None => throw (TypeError "Cannot read properties of undefined (reading 'name')")
       end
     else
       let mname := or_default (opt_name options) "noname" in
       let comment := or_default (opt_comment options) "" in
       emit (WriteMigration (cur_revision currentState) migration migrationsDir
               mname comment);;
       info ← call (writeMigration migrate (cur_revision currentState) migration
                      migrationsDir mname comment);
       console_log ("New migration to revision "
                      +:+ revision_str (cur_revision currentState)
                      +:+ " has been saved to file '" +:+ filename info +:+ "'");;
       mret (info_name info));
  let rows := [ {| rec_revision := cur_revision currentState;
                   rec_name := name;
                   rec_state := JSON_stringify host currentState |} ] in
  let sign := if truthy resetState then ">=" else ">" in
  p ← start (SequelizeQuery (sql_delete_states sign revision) DELETE)
        (delete_where host (sql_delete_states sign revision));
  mret (then_catch p (afterDelete name rows) handler).

(** Lines 140-196: the report, the preview and the start of the saving. *)
Definition report_and_save (lastExecutedMigration : option MetaRow)
    (revision : Revision) (currentState : CurrentState) (migration : Migration)
    : Sync Run :=
  if negb (truthy resetState) && bool_decide (length (commandsUp migration) = 0)
  then console_log "No changes found";; process_exit 0
  else
    each (consoleOut migration) (λ v, console_log ("[Actions] " +:+ v));;
    if opt_preview options then show_preview migration
    else
      p ← start (PruneOldMigFiles revision migrationsDir)
            (pruneOldMigFiles migrate revision migrationsDir options);
      mret (then_only p
              (afterPrune lastExecutedMigration revision currentState migration)).

(** Lines 114-197, the callback of the second query. *)
Definition onLastMigration (lastExecutedMigration : option MetaRow)
    (revision : Revision) (rows : list StateRow) : Sync Run :=
  let lastMigration := head rows in
  let previous := previous_tables lastMigration in
  current ← call (reverseModels migrate);
  let currentState :=
    {| cur_tables := current; cur_revision := current_revision revision |} in
  migration ← call (assemble previous current);
  report_and_save lastExecutedMigration revision currentState migration.

(** Lines 107-198, the callback of the first query. *)
Definition onLastExecuted (rows : list MetaRow) : Sync Run :=
  let lastExecutedMigration := head rows in
  let revision := revision_of lastExecutedMigration in
  if negb (bool_decide (is_Some lastExecutedMigration)) && truthy resetState
  then process_exit 0
  else
    p ← start (SequelizeQuery (sql_state_of revision) SELECT)
          (select_state host (sql_state_of revision));
    mret (then_catch p (onLastMigration lastExecutedMigration revision) handler).

(** Lines 104-199. *)
Definition afterMetaMigrations (_ : unit) : Sync Run :=
  p ← start (SequelizeQuery sql_last_executed SELECT)
        (select_name host sql_last_executed);
  mret (then_catch p onLastExecuted handler).

(** Lines 88-200. *)
Definition afterMeta (_ : unit) : Sync Run :=
  p ← start (CreateTable "SequelizeMetaMigrations")
        (createTable host "SequelizeMetaMigrations");
  mret (then_catch p afterMetaMigrations handler).

(** The whole script. *)
Definition main : Run :=
  run_script
    (if opt_help options then show_help
     else
       p ← start (CreateTable "SequelizeMeta") (createTable host "SequelizeMeta");
       mret (then_catch p afterMeta handler)).

(** The calls every run starts with, as long as they succeed. *)
Definition first_calls : list Event :=
  [ Invoke (CreateTable "SequelizeMeta");
    Invoke (CreateTable "SequelizeMetaMigrations");
    Invoke (SequelizeQuery sql_last_executed SELECT) ].

Definition state_call (rows : list MetaRow) : Event :=
  Invoke (SequelizeQuery (sql_state_of (revision_of (head rows))) SELECT).

(** The run gets as far as the first query's answer: no [--help], both
    meta tables are created and the query answers [rows]. *)
Definition answers (rows : list MetaRow) : Prop :=
  opt_help options = false ∧
  createTable host "SequelizeMeta" = Resolved tt ∧
  createTable host "SequelizeMetaMigrations" = Resolved tt ∧
  select_name host sql_last_executed = Resolved rows.

(** The run gets as far as the comparison: it is not stopped at line 110,
    the second query answers [srows], the models are read as [current] and
    the migration [m] is assembled. *)
Definition compares (rows : list MetaRow) (srows : list StateRow)
    (current : Tables) (m : Migration) : Prop :=
  answers rows ∧
  (head rows = None → truthy resetState = false) ∧
  select_state host (sql_state_of (revision_of (head rows))) = Resolved srows ∧
  reverseModels migrate = Normal current ∧
  assemble (previous_tables (head srows)) current = Normal m.

(** The lines [_.each] logs for the change log. *)
Definition actions_log (m : Migration) : list Event :=
  (λ v, ConsoleLog ("[Actions] " +:+ v)) <$> consoleOut m.

(** The four lines of the preview. *)
Definition preview_log (m : Migration) : list Event :=
  [ ConsoleLog "Migration result:";
    ConsoleLog (render (commandsUp m));
    ConsoleLog "Undo commands:";
    ConsoleLog (render (commandsDown m)) ].

(** The migration is the artifact of the two directions: forward commands
    from [previous] to [current], reverse commands the forward commands of
    the opposite direction. *)
Definition artifact_of (previous current : Tables) (m : Migration) : Prop :=
  ∃ up down,
    pipeline previous current = Normal up ∧
    pipeline current previous = Normal down ∧
    m = set_commandsDown up (commandsUp down).

(** ** The ways a run ends *)

(** What the handler given to every [.catch] prints for [err]. *)
Definition reports (err : Exn) : list Event :=
  if opt_debug options then [ConsoleError err] else [].

(** A call rejected with [err] in front of a handler. *)
Definition rejected (c : Call) (err : Exn) : list Event :=
  [Invoke c; Rejection c err] ++ reports err.

(** The usage text of lines 48-52. *)
Definition usage_log : list Event :=
  ConsoleLog ("Sequelize migration creation tool" +:+ nl +:+ nl +:+ "Usage:")
    :: ((λ option, ConsoleLog (usage_line option)) <$> optionDefinitions).

(** The guard of line 140 lets the run go on. *)
Definition changed (m : Migration) : Prop :=
  truthy resetState = true ∨ commandsUp m ≠ [].

(** The trace of a run up to the change log. *)
Definition compared (rows : list MetaRow) (m : Migration) : list Event :=
  first_calls ++ [state_call rows] ++ actions_log m.

(** The calls of lines 156-183 and their arguments. *)
Definition prune_call (rows : list MetaRow) : Call :=
  PruneOldMigFiles (revision_of (head rows)) migrationsDir.

Definition written (rows : list MetaRow) (m : Migration) : Completion WriteInfo :=
  writeMigration migrate (current_revision (revision_of (head rows))) m
    migrationsDir (or_default (opt_name options) "noname")
    (or_default (opt_comment options) "").

Definition write_event (rows : list MetaRow) (m : Migration) : Event :=
  WriteMigration (current_revision (revision_of (head rows))) m
    migrationsDir (or_default (opt_name options) "noname")
    (or_default (opt_comment options) "").

Definition saved_to (rows : list MetaRow) (info : WriteInfo) : Event :=
  ConsoleLog ("New migration to revision "
                +:+ revision_str (current_revision (revision_of (head rows)))
                +:+ " has been saved to file '" +:+ filename info +:+ "'").

Definition delete_sql (rows : list MetaRow) : string :=
  sql_delete_states (if truthy resetState then ">=" else ">")
    (revision_of (head rows)).

Definition delete_call (rows : list MetaRow) : Call :=
  SequelizeQuery (delete_sql rows) DELETE.

Definition state_record (rows : list MetaRow) (current : Tables) (name : string)
    : StateRecord :=
  {| rec_revision := current_revision (revision_of (head rows));
     rec_name := name;
     rec_state :=
       JSON_stringify host
         {| cur_tables := current;
            cur_revision := current_revision (revision_of (head rows)) |} |}.

Definition insert_call (rows : list MetaRow) (current : Tables) (name : string)
    : Call :=
  BulkInsert "SequelizeMetaMigrations" [state_record rows current name].

(** Lines 185-188. *)
Definition saved_log (name : string) : list Event :=
  (if truthy resetState
   then [ConsoleLog ("Reset state to latest migration of '" +:+ name
                       +:+ "' has been successfull")]
   else [])
  ++ (if opt_verbose options then [ConsoleLog "Updated state on DB."] else []).

(** Lines 157-171: how the saved row gets its name, and what is seen of
    it.  With [--reset-state] it is the name of the last executed migration
    and nothing is written; else the migration is written and the name is
    the one [writeMigration] returns. *)
Inductive Named (rows : list MetaRow) (m : Migration)
    : list Event → string → Prop :=
| named_reset row :
    truthy resetState = true →
    head rows = Some row →
    Named rows m [] (row_name row)
| named_written info :
    truthy resetState = false →
    written rows m = Normal info →
    Named rows m [write_event rows m; saved_to rows info] (info_name info).

(** The run gets past [pruneOldMigFiles]. *)
Definition prunes (rows : list MetaRow) (srows : list StateRow)
    (current : Tables) (m : Migration) : Prop :=
  compares rows srows current m ∧
  changed m ∧
  opt_preview options = false ∧
  pruneOldMigFiles migrate (revision_of (head rows)) migrationsDir options
    = Resolved tt.

(** The trace of a run whose bulk insert succeeds. *)
Definition saved (rows : list MetaRow) (current : Tables) (m : Migration)
    (tr : list Event) (name : string) : list Event :=
  compared rows m ++ Invoke (prune_call rows) :: tr
    ++ [Invoke (delete_call rows); Invoke (insert_call rows current name)]
    ++ saved_log name.

(** Every way a run of the script ends, with what is seen of it. *)
Inductive Ends : Run → Prop :=
| ends_help :
    opt_help options = true →
    Ends (usage_log, Exited 0)
| ends_meta e :
    opt_help options = false →
    createTable host "SequelizeMeta" = Rejected e →
    Ends (rejected (CreateTable "SequelizeMeta") e, Drained)
| ends_meta_migrations e :
    opt_help options = false →
    createTable host "SequelizeMeta" = Resolved tt →
    createTable host "SequelizeMetaMigrations" = Rejected e →
    Ends (Invoke (CreateTable "SequelizeMeta")
            :: rejected (CreateTable "SequelizeMetaMigrations") e, Drained)
| ends_last_executed e :
    opt_help options = false →
    createTable host "SequelizeMeta" = Resolved tt →
    createTable host "SequelizeMetaMigrations" = Resolved tt →
    select_name host sql_last_executed = Rejected e →
    Ends (Invoke (CreateTable "SequelizeMeta")
            :: Invoke (CreateTable "SequelizeMetaMigrations")
            :: rejected (SequelizeQuery sql_last_executed SELECT) e, Drained)
| ends_nothing_to_reset rows :
    answers rows →
    head rows = None →
    truthy resetState = true →
    Ends (first_calls, Exited 0)
| ends_last_state rows e :
    answers rows →
    (head rows = None → truthy resetState = false) →
    select_state host (sql_state_of (revision_of (head rows))) = Rejected e →
    Ends (first_calls
            ++ rejected (SequelizeQuery (sql_state_of (revision_of (head rows)))
                           SELECT) e,
          Drained)
| ends_models rows srows e :
    answers rows →
    (head rows = None → truthy resetState = false) →
    select_state host (sql_state_of (revision_of (head rows))) = Resolved srows →
    reverseModels migrate = Throw e →
    Ends (first_calls ++ [state_call rows] ++ reports e, Drained)
| ends_assemble rows srows current e :
    answers rows →
    (head rows = None → truthy resetState = false) →
    select_state host (sql_state_of (revision_of (head rows))) = Resolved srows →
    reverseModels migrate = Normal current →
    assemble (previous_tables (head srows)) current = Throw e →
    Ends (first_calls ++ [state_call rows] ++ reports e, Drained)
| ends_no_changes rows srows current m :
    compares rows srows current m →
    truthy resetState = false →
    commandsUp m = [] →
    Ends (first_calls ++ [state_call rows; ConsoleLog "No changes found"],
          Exited 0)
| ends_preview rows srows current m :
    compares rows srows current m →
    changed m →
    opt_preview options = true →
    Ends (compared rows m ++ preview_log m, Exited 0)
| ends_prune rows srows current m e :
    compares rows srows current m →
    changed m →
    opt_preview options = false →
    pruneOldMigFiles migrate (revision_of (head rows)) migrationsDir options
      = Rejected e →
    Ends (compared rows m
            ++ [Invoke (prune_call rows); Rejection (prune_call rows) e],
          Unhandled e)
| ends_write rows srows current m e :
    prunes rows srows current m →
    truthy resetState = false →
    written rows m = Throw e →
    Ends (compared rows m ++ [Invoke (prune_call rows); write_event rows m],
          Unhandled e)
| ends_delete rows srows current m tr name e :
    prunes rows srows current m →
    Named rows m tr name →
    delete_where host (delete_sql rows) = Rejected e →
    Ends (compared rows m ++ Invoke (prune_call rows) :: tr
            ++ rejected (delete_call rows) e,
          Drained)
| ends_insert rows srows current m tr name e :
    prunes rows srows current m →
    Named rows m tr name →
    delete_where host (delete_sql rows) = Resolved tt →
    bulkInsert host "SequelizeMetaMigrations" [state_record rows current name]
      = Rejected e →
    Ends (compared rows m ++ Invoke (prune_call rows) :: tr
            ++ Invoke (delete_call rows)
            :: rejected (insert_call rows current name) e,
          Drained)
| ends_execute rows srows current m tr name :
    prunes rows srows current m →
    Named rows m tr name →
    delete_where host (delete_sql rows) = Resolved tt →
    bulkInsert host "SequelizeMetaMigrations" [state_record rows current name]
      = Resolved tt →
    opt_execute options = true →
    Ends (saved rows current m tr name
            ++ reports (ReferenceError "info is not defined"),
          Drained)
| ends_saved rows srows current m tr name :
    prunes rows srows current m →
    Named rows m tr name →
    delete_where host (delete_sql rows) = Resolved tt →
    bulkInsert host "SequelizeMetaMigrations" [state_record rows current name]
      = Resolved tt →
    opt_execute options = false →
    Ends (saved rows current m tr name, Exited 0).

(** The order in which a run makes its calls: the two meta tables, the two
    queries, and, without [--preview], the pruning, the writing of the
    migration (not with [--reset-state]), the DELETE and the bulk insert. *)
Definition plan : list Kind :=
  [KCreateTable; KCreateTable; KSelect; KSelect]
    ++ (if opt_preview options then []
        else KPrune :: (if truthy resetState then [] else [KWrite])
               ++ [KDelete; KInsert]).

(** ** Reasoning rules for callbacks and chains *)

Ltac unfold_sync :=
  unfold mbind, mret, sync_bind, sync_ret, sbind, sret, emit, console_log,
    console_error, throw, process_exit, call, when, start in *.

Lemma sync_sat_ret {A} (P : Event → Prop) (Q : A → Prop) a :
  Q a → sync_sat P Q (mret a).
Proof. intros HQ. split; [constructor | intros ? [= <-]; exact HQ]. Qed.

Lemma sync_sat_bind {A B} (P : Event → Prop) (Q' : A → Prop) (Q : B → Prop)
    (m : Sync A) (k : A → Sync B) :
  sync_sat P Q' m → (∀ a, Q' a → sync_sat P Q (k a)) → sync_sat P Q (m ≫= k).
Proof.
  intros [Hm HQ'] Hk. unfold mbind, sync_bind, sbind.
  destruct m as [tr [a | e | c]]; simpl in *.
  - destruct (Hk a (HQ' a eq_refl)) as [Hk1 Hk2].
    destruct (k a) as [tr' s]; simpl in *. split; [by apply Forall_app | done].
  - split; [done | intros ? [=]].
  - split; [done | intros ? [=]].
Qed.

Lemma sync_sat_emit (P : Event → Prop) (Q : unit → Prop) e :
  P e → Q tt → sync_sat P Q (emit e).
Proof. intros HP HQ. split; [by repeat constructor | by intros [] _]. Qed.

Lemma sync_sat_throw {A} (P : Event → Prop) (Q : A → Prop) e :
  sync_sat P Q (throw e).
Proof. split; [constructor | intros ? [=]]. Qed.

Lemma sync_sat_exit {A} (P : Event → Prop) (Q : A → Prop) c :
  sync_sat P Q (process_exit c).
Proof. split; [constructor | intros ? [=]]. Qed.

Lemma sync_sat_call {A} (P : Event → Prop) (Q : A → Prop) (c : Completion A) :
  (∀ a, c = Normal a → Q a) → sync_sat P Q (call c).
Proof.
  intros HQ. destruct c as [a | e]; simpl.
  - apply sync_sat_ret. by apply HQ.
  - apply sync_sat_throw.
Qed.

Lemma sync_sat_when (P : Event → Prop) (c : bool) (body : Sync unit) :
  sync_sat P (λ _, True) body → sync_sat P (λ _, True) (when c body).
Proof. intros Hb. destruct c; simpl; [done | by apply sync_sat_ret]. Qed.

Lemma sync_sat_each {A} (P : Event → Prop) (l : list A) (f : A → Sync unit) :
  (∀ x, sync_sat P (λ _, True) (f x)) → sync_sat P (λ _, True) (each l f).
Proof.
  intros Hf. induction l as [| x l IH]; simpl.
  - by apply sync_sat_ret.
  - apply (sync_sat_bind P (λ _, True) _ (f x) (λ _, each l f)); [apply Hf | done].
Qed.

Lemma sync_sat_start {A} (P : Event → Prop) (Q : Settled A → Prop) c
    (r : Settled A) :
  P (Invoke c) → (∀ e, r = Rejected e → P (Rejection c e)) → Q r →
  sync_sat P Q (start c r).
Proof.
  intros Hi Hr HQ. destruct r as [a | e]; simpl.
  - split; [by repeat constructor | by intros ? [= <-]].
  - split; [repeat constructor; auto | by intros ? [= <-]].
Qed.

Lemma run_sat_prepend (P : Event → Prop) tr r :
  Forall P tr → run_sat P r → run_sat P (prepend tr r).
Proof. intros. by apply Forall_app. Qed.

Lemma run_sat_handler (P : Event → Prop) (h : Exn → Sync unit) e :
  sync_sat P (λ _, True) (h e) → run_sat P (run_handler h e).
Proof.
  intros [Hh _]. unfold run_handler, run_sat.
  by destruct (h e) as [tr [[] | e' | c]].
Qed.

Lemma run_sat_then_catch {A} (P : Event → Prop) (p : Settled A)
    (cb : A → Sync Run) (h : Exn → Sync unit) :
  (∀ e, sync_sat P (λ _, True) (h e)) →
  (∀ a, p = Resolved a → sync_sat P (run_sat P) (cb a)) →
  run_sat P (then_catch p cb h).
Proof.
  intros Hh Hcb. destruct p as [a | e]; simpl.
  - destruct (Hcb a eq_refl) as [H1 H2].
    destruct (cb a) as [tr [k | e | c]]; simpl in *.
    + apply run_sat_prepend; [done | by apply H2].
    + apply run_sat_prepend; [done | by apply run_sat_handler].
    + done.
  - by apply run_sat_handler.
Qed.

Lemma run_sat_then_only {A} (P : Event → Prop) (p : Settled A)
    (cb : A → Sync Run) :
  (∀ a, p = Resolved a → sync_sat P (run_sat P) (cb a)) →
  run_sat P (then_only p cb).
Proof.
  intros Hcb. destruct p as [a | e]; simpl; [| constructor].
  destruct (Hcb a eq_refl) as [H1 H2].
  destruct (cb a) as [tr [k | e | c]]; simpl in *; try done.
  apply run_sat_prepend; [done | by apply H2].
Qed.

Lemma run_sat_script (P : Event → Prop) (s : Sync Run) :
  sync_sat P (run_sat P) s → run_sat P (run_script s).
Proof.
  intros [H1 H2]. destruct s as [tr [k | e | c]]; simpl in *; try done.
  apply run_sat_prepend; [done | by apply H2].
Qed.

(** The usual last statement of a callback: start an operation and chain
    on its promise. *)
Lemma sync_sat_start_catch {A} (P : Event → Prop) c (r : Settled A)
    (cb : A → Sync Run) (h : Exn → Sync unit) :
  P (Invoke c) → (∀ e, r = Rejected e → P (Rejection c e)) →
  (∀ e, sync_sat P (λ _, True) (h e)) →
  (∀ a, r = Resolved a → sync_sat P (run_sat P) (cb a)) →
  sync_sat P (run_sat P) (p ← start c r; mret (then_catch p cb h)).
Proof.
  intros Hi Hr Hh Hcb.
  apply (sync_sat_bind P (λ p, p = r)); [by apply sync_sat_start |].
  intros p ->. apply sync_sat_ret. by apply run_sat_then_catch.
Qed.

Lemma sync_sat_start_only {A} (P : Event → Prop) c (r : Settled A)
    (cb : A → Sync Run) :
  P (Invoke c) → (∀ e, r = Rejected e → P (Rejection c e)) →
  (∀ a, r = Resolved a → sync_sat P (run_sat P) (cb a)) →
  sync_sat P (run_sat P) (p ← start c r; mret (then_only p cb)).
Proof.
  intros Hi Hr Hcb.
  apply (sync_sat_bind P (λ p, p = r)); [by apply sync_sat_start |].
  intros p ->. apply sync_sat_ret. by apply run_sat_then_only.
Qed.

Lemma sync_sat_handler (P : Event → Prop) e :
  (opt_debug options = true → ∀ e', P (ConsoleError e')) →
  sync_sat P (λ _, True) (handler e).
Proof.
  intros HP. unfold handler. destruct (opt_debug options); simpl.
  - apply sync_sat_emit; auto.
  - by apply sync_sat_ret.
Qed.

Lemma sync_sat_log (P : Event → Prop) (Q : unit → Prop) line :
  P (ConsoleLog line) → Q tt → sync_sat P Q (console_log line).
Proof. apply sync_sat_emit. Qed.

Lemma show_help_sat (P : Event → Prop) :
  (∀ l, P (ConsoleLog l)) → sync_sat P (run_sat P) show_help.
Proof.
  intros HP. unfold show_help.
  eapply (sync_sat_bind P (λ _, True)); [by apply sync_sat_log |]. intros ? _.
  eapply (sync_sat_bind P (λ _, True)).
  { apply sync_sat_each. intros x. by apply sync_sat_log. }
  intros ? _. apply sync_sat_exit.
Qed.

Lemma show_preview_sat (P : Event → Prop) m :
  (∀ l, P (ConsoleLog l)) → sync_sat P (run_sat P) (show_preview m).
Proof.
  intros HP. unfold show_preview.
  repeat (eapply (sync_sat_bind P (λ _, True));
          [by apply sync_sat_log | intros ? _]).
  apply sync_sat_exit.
Qed.

(** Every event of a run of the script is of one of the kinds below; a
    property that holds of each kind holds of every event of the run.  The
    calls behind the preview branch are only reached without [--preview],
    [console.error] only with [--debug], and the migration handed to
    [writeMigration] is the one [assemble] built. *)
Lemma main_sat (P : Event → Prop) :
  (∀ l, P (ConsoleLog l)) →
  (opt_debug options = true → ∀ e, P (ConsoleError e)) →
  (∀ c e, P (Rejection c e)) →
  (∀ c, persists (Invoke c) = false → P (Invoke c)) →
  (opt_preview options = false → ∀ c, P (Invoke c)) →
  (opt_preview options = false → ∀ rows srows current m,
      select_name host sql_last_executed = Resolved rows →
      select_state host (sql_state_of (revision_of (head rows))) = Resolved srows →
      reverseModels migrate = Normal current →
      assemble (previous_tables (head srows)) current = Normal m →
      P (WriteMigration (current_revision (revision_of (head rows))) m
           migrationsDir (or_default (opt_name options) "noname")
           (or_default (opt_comment options) ""))) →
  run_sat P main.
Proof.
  intros Hlog Herr Hrej Hinv Hpers Hwrite. unfold main. apply run_sat_script.
  destruct (opt_help options); [by apply show_help_sat |].
  assert (Hh : ∀ e, sync_sat P (λ _, True) (handler e)).
  { intros e. by apply sync_sat_handler. }
  apply sync_sat_start_catch; auto. intros ? _.
  apply sync_sat_start_catch; auto. intros ? _.
  apply sync_sat_start_catch; auto. intros rows Hrows.
  unfold onLastExecuted.
  destruct (_ && _); [apply sync_sat_exit |].
  apply sync_sat_start_catch; auto. intros srows Hsrows.
  unfold onLastMigration.
  eapply (sync_sat_bind _ (λ cur, reverseModels migrate = Normal cur));
    [by apply sync_sat_call |]. intros current Hcur.
  eapply (sync_sat_bind _ (λ m, assemble _ current = Normal m));
    [by apply sync_sat_call |]. intros m Hm.
  unfold report_and_save. destruct (_ && _).
  { eapply (sync_sat_bind _ (λ _, True)); [by apply sync_sat_log |]. intros ? _.
    apply sync_sat_exit. }
  eapply (sync_sat_bind _ (λ _, True)).
  { apply sync_sat_each. intros x. by apply sync_sat_log. }
  intros ? _. destruct (opt_preview options) eqn:Hprev;
    [by apply show_preview_sat |].
  specialize (Hpers eq_refl). specialize (Hwrite eq_refl).
  apply sync_sat_start_only; auto. intros ? _.
  unfold afterPrune.
  eapply (sync_sat_bind _ (λ _, True)).
  { destruct (truthy resetState).
    - destruct (head rows); [by apply sync_sat_ret | apply sync_sat_throw].
    - eapply (sync_sat_bind _ (λ _, True)).
      { apply sync_sat_emit; [by eapply Hwrite | done]. }
      intros ? _.
      eapply (sync_sat_bind _ (λ _, True)); [by apply sync_sat_call |].
      intros info _.
      eapply (sync_sat_bind _ (λ _, True)); [by apply sync_sat_log |].
      intros ? _. by apply sync_sat_ret. }
  intros name _.
  apply sync_sat_start_catch; auto. intros ? _.
  unfold afterDelete.
  apply sync_sat_start_catch; auto. intros ? _.
  unfold afterBulkInsert.
  eapply (sync_sat_bind _ (λ _, True)).
  { apply sync_sat_when. by apply sync_sat_log. }
  intros ? _.
  eapply (sync_sat_bind _ (λ _, True)).
  { apply sync_sat_when. by apply sync_sat_log. }
  intros ? _.
  destruct (opt_execute options); [apply sync_sat_throw | apply sync_sat_exit].
Qed.

(** *** Rejections and the handlers *)

Lemma calm_no_rejection tr c e :
  Forall calm tr → chain_step c = true → ¬ In (Rejection c e) tr.
Proof.
  intros Hall Hc Hin. rewrite Forall_forall in Hall.
  apply list_elem_of_In, Hall in Hin. specialize (Hin c e eq_refl). congruence.
Qed.

Lemma handler_silent e : opt_debug options = false → handler e = ([], Val tt).
Proof. intros Hd. unfold handler. by rewrite Hd. Qed.

Lemma swallows_nil o : swallows ([], o).
Proof. intros c e _ []. Qed.

Lemma swallows_then_catch {A} (p : Settled A) (cb : A → Sync Run) :
  opt_debug options = false →
  (∀ a, sync_swallows (cb a)) → swallows (then_catch p cb handler).
Proof.
  intros Hd Hcb. destruct p as [a | e]; simpl.
  - destruct (Hcb a) as [H1 H2].
    destruct (cb a) as [tr [k | e | c]]; simpl in *.
    + intros c e Hc Hin. simpl in *. apply in_app_or in Hin as [Hin | Hin].
      * by specialize (H1 c e Hc Hin) as [= ->].
      * by apply (H2 k eq_refl c e).
    + intros c e' _ _. unfold run_handler. by rewrite handler_silent.
    + intros c' e Hc Hin. by specialize (H1 c' e Hc Hin).
  - unfold run_handler. rewrite handler_silent by done. apply swallows_nil.
Qed.

Lemma swallows_then_only {A} (p : Settled A) (cb : A → Sync Run) :
  (∀ a, sync_swallows (cb a)) → swallows (then_only p cb).
Proof.
  intros Hcb. destruct p as [a | e]; simpl; [| apply swallows_nil].
  destruct (Hcb a) as [H1 H2].
  destruct (cb a) as [tr [k | e | c]]; simpl in *.
  - intros c e Hc Hin. simpl in *. apply in_app_or in Hin as [Hin | Hin].
    + by specialize (H1 c e Hc Hin) as [= ->].
    + by apply (H2 k eq_refl c e).
  - intros c e' Hc Hin. by specialize (H1 c e' Hc Hin).
  - intros c' e Hc Hin. by specialize (H1 c' e Hc Hin).
Qed.

Lemma swallows_script (s : Sync Run) : sync_swallows s → swallows (run_script s).
Proof.
  intros [H1 H2]. destruct s as [tr [k | e | c]]; simpl in *.
  - intros c e Hc Hin. simpl in *. apply in_app_or in Hin as [Hin | Hin].
    + by specialize (H1 c e Hc Hin) as [= ->].
    + by apply (H2 k eq_refl c e).
  - intros c e' Hc Hin. by specialize (H1 c e' Hc Hin).
  - intros c' e Hc Hin. by specialize (H1 c' e Hc Hin).
Qed.

Lemma sync_swallows_bind {A} (Q : A → Prop) (m : Sync A) (k : A → Sync Run) :
  sync_sat calm Q m → (∀ a, Q a → sync_swallows (k a)) →
  sync_swallows (m ≫= k).
Proof.
  intros [Hm HQ] Hk. unfold mbind, sync_bind, sbind.
  destruct m as [tr [a | e | c]]; simpl in *.
  - destruct (Hk a (HQ a eq_refl)) as [H1 H2].
    destruct (k a) as [tr' s']; simpl in *. split; [| done].
    intros c e Hc Hin. apply in_app_or in Hin as [Hin | Hin].
    + by apply calm_no_rejection in Hin.
    + by apply (H1 c e).
  - split; [| intros ? [=]].
    intros c e' Hc Hin. by apply calm_no_rejection in Hin.
  - split; [| intros ? [=]].
    intros c' e Hc Hin. by apply calm_no_rejection in Hin.
Qed.

Lemma sync_swallows_exit c : sync_swallows (process_exit c).
Proof. split; [intros ? ? _ [] | intros ? [=]]. Qed.

Lemma sync_swallows_throw e : sync_swallows (throw e).
Proof. split; [intros ? ? _ [] | intros ? [=]]. Qed.

Lemma sync_swallows_start_catch {A} c (r : Settled A) (cb : A → Sync Run) :
  opt_debug options = false →
  (∀ a, sync_swallows (cb a)) →
  sync_swallows (p ← start c r; mret (then_catch p cb handler)).
Proof.
  intros Hd Hcb. destruct r as [a | e]; simpl.
  - split.
    + intros c' e' _ [[=] | []].
    + intros k [= <-]. by apply (swallows_then_catch (Resolved a)).
  - unfold run_handler. rewrite handler_silent by done. split.
    + by intros c' e' _ _.
    + intros k [= <-]. apply swallows_nil.
Qed.

Lemma sync_swallows_start_only {A} c (r : Settled A) (cb : A → Sync Run) :
  chain_step c = false →
  (∀ a, sync_swallows (cb a)) →
  sync_swallows (p ← start c r; mret (then_only p cb)).
Proof.
  intros Hc Hcb. destruct r as [a | e]; simpl.
  - split.
    + intros c' e' _ [[=] | []].
    + intros k [= <-]. by apply (swallows_then_only (Resolved a)).
  - split.
    + intros c' e' Hc' [[=] | [[= <- <-] | []]]. congruence.
    + intros k [= <-]. apply swallows_nil.
Qed.

Lemma calm_log (Q : unit → Prop) line : Q tt → sync_sat calm Q (console_log line).
Proof. intros HQ. apply sync_sat_log; [by intros ? ? [=] | done]. Qed.

(** Without [--debug] every rejection of a chain step ends the run with
    nothing left to do. *)
Lemma main_swallows : opt_debug options = false → swallows main.
Proof.
  intros Hd. unfold main. apply swallows_script.
  destruct (opt_help options).
  { unfold show_help.
    eapply (sync_swallows_bind (λ _, True)); [by apply calm_log |]. intros ? _.
    eapply (sync_swallows_bind (λ _, True)).
    { apply sync_sat_each. intros x. by apply calm_log. }
    intros ? _. apply sync_swallows_exit. }
  apply sync_swallows_start_catch; [done |]. intros ?.
  apply sync_swallows_start_catch; [done |]. intros ?.
  apply sync_swallows_start_catch; [done |]. intros rows.
  unfold onLastExecuted.
  destruct (_ && _); [apply sync_swallows_exit |].
  apply sync_swallows_start_catch; [done |]. intros srows.
  unfold onLastMigration.
  eapply (sync_swallows_bind (λ _, True)); [by apply sync_sat_call |].
  intros current _.
  eapply (sync_swallows_bind (λ _, True)); [by apply sync_sat_call |].
  intros m _.
  unfold report_and_save. destruct (_ && _).
  { eapply (sync_swallows_bind (λ _, True)); [by apply calm_log |]. intros ? _.
    apply sync_swallows_exit. }
  eapply (sync_swallows_bind (λ _, True)).
  { apply sync_sat_each. intros x. by apply calm_log. }
  intros ? _. destruct (opt_preview options).
  { unfold show_preview.
    repeat (eapply (sync_swallows_bind (λ _, True));
            [by apply calm_log | intros ? _]).
    apply sync_swallows_exit. }
  apply sync_swallows_start_only; [done |]. intros ?.
  unfold afterPrune.
  eapply (sync_swallows_bind (λ _, True)).
  { destruct (truthy resetState).
    - destruct (head rows); [by apply sync_sat_ret | apply sync_sat_throw].
    - eapply (sync_sat_bind _ (λ _, True)).
      { apply sync_sat_emit; [by intros ? ? [=] | done]. }
      intros ? _.
      eapply (sync_sat_bind _ (λ _, True)); [by apply sync_sat_call |].
      intros info _.
      eapply (sync_sat_bind _ (λ _, True)); [by apply calm_log |].
      intros ? _. by apply sync_sat_ret. }
  intros name _.
  apply sync_swallows_start_catch; [done |]. intros ?.
  unfold afterDelete.
  apply sync_swallows_start_catch; [done |]. intros ?.
  unfold afterBulkInsert.
  eapply (sync_swallows_bind (λ _, True)).
  { apply sync_sat_when. by apply calm_log. }
  intros ? _.
  eapply (sync_swallows_bind (λ _, True)).
  { apply sync_sat_when. by apply calm_log. }
  intros ? _.
  destruct (opt_execute options);
    [apply sync_swallows_throw | apply sync_swallows_exit].
Qed.

(** *** The run up to the comparison *)

Lemma each_log {A} (l : list A) (f : A → string) :
  each l (λ v, console_log (f v)) = ((λ v, ConsoleLog (f v)) <$> l, Val tt).
Proof.
  induction l as [| x l IH]; simpl; [done |]. by rewrite IH.
Qed.

Lemma main_answers rows :
  answers rows →
  main = prepend first_calls (then_catch (Resolved rows) onLastExecuted handler).
Proof.
  intros (Hhelp & Hm & Hmm & Hq). unfold main, afterMeta, afterMetaMigrations.
  rewrite Hhelp. unfold_sync. rewrite Hm. simpl. rewrite Hmm. simpl.
  rewrite Hq. simpl. unfold prepend. simpl.
  by destruct (onLastExecuted rows) as [tr [[tr' o] | e | c]].
Qed.

Lemma main_compares rows srows current m :
  compares rows srows current m →
  main =
    prepend (first_calls ++ [state_call rows])
      (then_catch (Resolved tt)
         (λ _, report_and_save (head rows) (revision_of (head rows))
                 {| cur_tables := current;
                    cur_revision := current_revision (revision_of (head rows)) |}
                 m)
         handler).
Proof.
  intros (Hans & Hstop & Hq & Hcur & Hm). rewrite (main_answers rows Hans).
  cbn [then_catch]. unfold onLastExecuted, onLastMigration, state_call.
  assert (negb (bool_decide (is_Some (head rows))) && truthy resetState = false)
    as ->.
  { destruct (head rows) as [row |] eqn:Hrow.
    - rewrite bool_decide_eq_true_2; [done | by eexists].
    - rewrite (Hstop eq_refl). apply andb_false_r. }
  unfold_sync. rewrite Hq. simpl. rewrite Hcur. simpl. rewrite Hm. simpl.
  unfold prepend. simpl.
  by destruct (report_and_save _ _ _ _) as [tr [[tr' o] | e | c]].
Qed.

(** ** The script's properties *)

Lemma assemble_artifact previous current m :
  assemble previous current = Normal m ↔ artifact_of previous current m.
Proof.
  unfold assemble, artifact_of, pipeline.
  destruct (parseDifference migrate previous current) as [a | e]; simpl;
    [| split; [done | by intros (? & ? & [=] & _)]].
  destruct (parseDifference migrate current previous) as [d | e]; simpl;
    [| split; [done | by intros (? & ? & _ & [=] & _)]].
  destruct (sortActions migrate a) as [a' | e]; simpl;
    [| split; [done | by intros (? & ? & [=] & _)]].
  destruct (sortActions migrate d) as [d' | e]; simpl;
    [| split; [done | by intros (? & ? & _ & [=] & _)]].
  destruct (getMigration migrate a') as [up | e]; simpl;
    [| split; [done | by intros (? & ? & [=] & _)]].
  destruct (getMigration migrate d') as [down | e]; simpl;
    [| split; [done | by intros (? & ? & _ & [=] & _)]].
  split.
  - intros [= <-]. by exists up, down.
  - by intros (? & ? & [= <-] & [= <-] & ->).
Qed.

(** C7.  The migration is assembled from the two directions: its forward
    commands are those of generate(sort(diff(previous, current))), its
    reverse commands are the forward commands of
    generate(sort(diff(current, previous))), each direction compared,
    sorted and generated on its own; and the migration the script hands to
    [writeMigration] is the one assembled from the tables of the saved state
    and the tables read from the models. *)
Theorem migration_artifact :
  (∀ previous current m,
     assemble previous current = Normal m ↔
     ∃ up down,
       pipeline previous current = Normal up ∧
       pipeline current previous = Normal down ∧
       commandsUp m = commandsUp up ∧
       commandsDown m = commandsUp down ∧
       consoleOut m = consoleOut up)
  ∧ run_sat
      (λ ev, ∀ r m d n c, ev = WriteMigration r m d n c →
         ∃ rows srows current,
           select_name host sql_last_executed = Resolved rows ∧
           select_state host (sql_state_of (revision_of (head rows)))
             = Resolved srows ∧
           reverseModels migrate = Normal current ∧
           artifact_of (previous_tables (head srows)) current m)
      main.
Proof.
  split.
  - intros previous current m. rewrite assemble_artifact. unfold artifact_of.
    split.
    + intros (up & down & Hup & Hdown & ->). by exists up, down.
    + intros (up & down & Hup & Hdown & H1 & H2 & H3). exists up, down.
      split_and!; [done | done |]. destruct m; simpl in *.
      unfold set_commandsDown. by subst.
  - apply main_sat; try (intros; discriminate).
    intros _ rows srows current m Hrows Hsrows Hcur Hm r m' d n c [= <- <- <- <- <-].
    exists rows, srows, current. by rewrite <- assemble_artifact.
Qed.

(** C6, as the script has it.  Without [--reset-state], a run that gets as
    far as the comparison and finds the forward command sequence empty logs
    [No changes found] and leaves the process with status 0: nothing is
    pruned or written and no state row is deleted or inserted. *)
Theorem no_changes_reported rows srows current m :
  compares rows srows current m →
  truthy resetState = false →
  commandsUp m = [] →
  main = (first_calls ++ [state_call rows; ConsoleLog "No changes found"],
          Exited 0)
  ∧ run_sat (λ ev, persists ev = false) main.
Proof.
  intros Hcmp Hreset Hup.
  assert (main = (first_calls ++ [state_call rows; ConsoleLog "No changes found"],
                  Exited 0)) as Hmain.
  { rewrite (main_compares _ _ _ _ Hcmp). unfold report_and_save.
    by rewrite Hreset, Hup. }
  split; [done |]. rewrite Hmain. unfold run_sat. simpl.
  by repeat constructor.
Qed.

(** C8, as the script has it.  With [--preview] no run prunes migration
    files, writes a migration or sends the DELETE or the bulk insert; and a
    run that gets as far as the comparison, and is not ended by the report
    of no changes, logs the change log, prints the forward and the reverse
    commands and leaves the process with status 0. *)
Theorem preview_persists_nothing :
  opt_preview options = true →
  run_sat (λ ev, persists ev = false) main
  ∧ ∀ rows srows current m,
      compares rows srows current m →
      truthy resetState = true ∨ commandsUp m ≠ [] →
      main = (first_calls ++ [state_call rows] ++ actions_log m ++ preview_log m,
              Exited 0).
Proof.
  intros Hprev. split.
  - apply main_sat; try done; rewrite Hprev; done.
  - intros rows srows current m Hcmp Hchg.
    rewrite (main_compares _ _ _ _ Hcmp). unfold report_and_save.
    assert (negb (truthy resetState)
              && bool_decide (length (commandsUp m) = 0) = false) as ->.
    { destruct Hchg as [-> | Hne]; [done |].
      rewrite bool_decide_eq_false_2; [apply andb_false_r |].
      by destruct (commandsUp m). }
    rewrite Hprev. unfold mbind, sync_bind. rewrite each_log.
    unfold prepend, actions_log, preview_log. simpl. done.
Qed.

(** C9.  Without [--debug], once a step of the chain that has a handler
    behind it (the creation of a meta table, a query, the DELETE, the bulk
    insert) is rejected, the run ends with nothing left to do: nothing is
    printed by [console.error] and [process.exit] is not called, with a
    non-zero status or any other. *)
Theorem rejection_swallowed c e :
  opt_debug options = false →
  chain_step c = true →
  In (Rejection c e) main.1 →
  main.2 = Drained ∧ run_sat (λ ev, error_output ev = false) main.
Proof.
  intros Hd Hc Hin. split.
  - by apply (main_swallows Hd c e).
  - apply main_sat; try done. by rewrite Hd.
Qed.

Lemma split_first_spec (sep : Ascii.ascii) (s : string) :
  has_char sep (split_first sep s) = false
  ∧ (has_char sep s = false → split_first sep s = s)
  ∧ (has_char sep s = true → ∃ rest, s = split_first sep s +:+ String sep rest).
Proof.
  induction s as [| ch s (IH1 & IH2 & IH3)]; simpl; [done |].
  destruct (Ascii.eqb ch sep) eqn:Heq; simpl.
  - apply Ascii.eqb_eq in Heq as ->. split_and!; [done | done |].
    intros _. by exists s.
  - rewrite Heq. simpl. split_and!; [done | |].
    + intros Hs. by rewrite IH2.
    + intros Hs. destruct (IH3 Hs) as [rest Hrest]. exists rest.
      by rewrite Hrest at 1.
Qed.

(** C10, as the script has it.  With [--reset-state] and no executed
    migration the run ends with status 0 right after the first query; with
    an executed migration the revision is the part of its name before the
    first dash (all of the name when it holds none); with no executed
    migration and no [--reset-state] the revision is the number -1.  The
    second query asks for the state of that revision. *)
Theorem reset_state_revision :
  (∀ rows, answers rows → truthy resetState = true → head rows = None →
     main = (first_calls, Exited 0))
  ∧ (∀ rows row, answers rows → head rows = Some row →
       revision_of (head rows) = RevOf (split_first dash (row_name row))
       ∧ ∃ rest o, main = (first_calls ++ state_call rows :: rest, o))
  ∧ (∀ rows, answers rows → truthy resetState = false → head rows = None →
       revision_of (head rows) = RevNone
       ∧ ∃ rest o, main = (first_calls ++ state_call rows :: rest, o))
  ∧ (∀ s, has_char dash (split_first dash s) = false
          ∧ (has_char dash s = false → split_first dash s = s)
          ∧ (has_char dash s = true →
             ∃ rest, s = split_first dash s +:+ String dash rest)).
Proof.
  assert (Hgo : ∀ rows, answers rows →
            negb (bool_decide (is_Some (head rows))) && truthy resetState = false →
            ∃ rest o, main = (first_calls ++ state_call rows :: rest, o)).
  { intros rows Hans Hguard. rewrite (main_answers rows Hans).
    cbn [then_catch]. unfold onLastExecuted. rewrite Hguard.
    unfold state_call.
    destruct (select_state host _) as [srows | e]; simpl.
    - destruct (onLastMigration _ _ srows) as [tr [[tr' o] | e | c]]; simpl;
        by eexists _, _.
    - destruct (run_handler handler e) as [tr o]. by eexists _, _. }
  split_and!.
  - intros rows Hans Hreset Hrows. rewrite (main_answers rows Hans).
    cbn [then_catch]. unfold onLastExecuted. by rewrite Hrows, Hreset.
  - intros rows row Hans Hrows. split; [by rewrite Hrows |].
    apply Hgo; [done |]. by rewrite Hrows.
  - intros rows Hans Hreset Hrows. split; [by rewrite Hrows |].
    apply Hgo; [done |]. rewrite Hreset. apply andb_false_r.
  - intros s. apply split_first_spec.
Qed.

(** ** Further properties of the script *)

Lemma exits_zero_handler e : exits_zero (run_handler handler e).
Proof.
  unfold run_handler, handler. by destruct (opt_debug options); intros code.
Qed.

Lemma exits_zero_then_catch {A} (p : Settled A) (cb : A → Sync Run) :
  (∀ a, sync_exits_zero (cb a)) → exits_zero (then_catch p cb handler).
Proof.
  intros Hcb. destruct p as [a | e]; simpl; [| apply exits_zero_handler].
  destruct (Hcb a) as [H1 H2]. destruct (cb a) as [tr [k | e | c]]; simpl in *.
  - intros code Hk. by apply (H2 k).
  - intros code Hk. by apply (exits_zero_handler e).
  - intros code [= <-]. by apply H1.
Qed.

Lemma exits_zero_then_only {A} (p : Settled A) (cb : A → Sync Run) :
  (∀ a, sync_exits_zero (cb a)) → exits_zero (then_only p cb).
Proof.
  intros Hcb. destruct p as [a | e]; simpl; [| by intros code].
  destruct (Hcb a) as [H1 H2]. destruct (cb a) as [tr [k | e | c]]; simpl in *.
  - intros code Hk. by apply (H2 k).
  - by intros code.
  - intros code [= <-]. by apply H1.
Qed.

Lemma sync_exits_zero_bind {A} (m : Sync A) (k : A → Sync Run) :
  (∀ code, m.2 = Exit code → code = 0%Z) →
  (∀ a, sync_exits_zero (k a)) →
  sync_exits_zero (m ≫= k).
Proof.
  intros Hm Hk. unfold mbind, sync_bind, sbind.
  destruct m as [tr [a | e | c]]; simpl in *.
  - destruct (Hk a) as [H1 H2]. by destruct (k a) as [tr' s'].
  - split; intros ? [=].
  - split; [intros ? [= <-]; by apply Hm | intros ? [=]].
Qed.

Lemma sync_exits_zero_exit : sync_exits_zero (process_exit 0).
Proof. split; [by intros ? [= <-] | intros ? [=]]. Qed.

Lemma sync_exits_zero_throw e : sync_exits_zero (throw e).
Proof. split; intros ? [=]. Qed.

Lemma no_exit_log line c : (console_log line).2 = Exit c → c = 0%Z.
Proof. intros [=]. Qed.

Lemma no_exit_each {A} (l : list A) (f : A → string) c :
  (each l (λ v, console_log (f v))).2 = Exit c → c = 0%Z.
Proof. rewrite each_log. intros [=]. Qed.

Lemma no_exit_call {A} (x : Completion A) c : (call x).2 = Exit c → c = 0%Z.
Proof. destruct x; intros [=]. Qed.

Lemma no_exit_start {A} call (r : Settled A) c :
  (start call r).2 = Exit c → c = 0%Z.
Proof. destruct r; intros [=]. Qed.

Lemma no_exit_when b line c :
  (when b (console_log line)).2 = Exit c → c = 0%Z.
Proof. destruct b; intros [=]. Qed.

(** Whatever the database and the library answer, the script never leaves
    the process with a status other than 0. *)
Theorem exit_status_zero : ∀ code, main.2 = Exited code → code = 0%Z.
Proof.
  change (exits_zero main). unfold main.
  assert (Hscript : ∀ s, sync_exits_zero s → exits_zero (run_script s)).
  { intros [tr [k | e | c]] [H1 H2]; simpl in *.
    - intros code Hk. by apply (H2 k).
    - by intros code.
    - intros code [= <-]. by apply H1. }
  assert (Hstart : ∀ A call (r : Settled A) cb,
            (∀ a, sync_exits_zero (cb a)) →
            sync_exits_zero (p ← start call r; mret (then_catch p cb handler))).
  { intros A call r cb Hcb. apply sync_exits_zero_bind; [apply no_exit_start |].
    intros p. split; [intros ? [=] |]. intros k [= <-].
    by apply exits_zero_then_catch. }
  apply Hscript. destruct (opt_help options).
  { unfold show_help.
    apply sync_exits_zero_bind; [apply no_exit_log |]. intros ?.
    apply sync_exits_zero_bind; [apply no_exit_each |]. intros ?.
    apply sync_exits_zero_exit. }
  apply Hstart. intros ?. apply Hstart. intros ?. apply Hstart. intros rows.
  unfold onLastExecuted. destruct (_ && _); [apply sync_exits_zero_exit |].
  apply Hstart. intros srows. unfold onLastMigration.
  apply sync_exits_zero_bind; [apply no_exit_call |]. intros current.
  apply sync_exits_zero_bind; [apply no_exit_call |]. intros m.
  unfold report_and_save. destruct (_ && _).
  { apply sync_exits_zero_bind; [apply no_exit_log |]. intros ?.
    apply sync_exits_zero_exit. }
  apply sync_exits_zero_bind; [apply no_exit_each |]. intros ?.
  destruct (opt_preview options).
  { unfold show_preview.
    repeat (apply sync_exits_zero_bind; [apply no_exit_log | intros ?]).
    apply sync_exits_zero_exit. }
  apply sync_exits_zero_bind; [apply no_exit_start |]. intros p.
  split; [intros ? [=] |]. intros k [= <-]. apply exits_zero_then_only.
  intros ?. unfold afterPrune.
  apply sync_exits_zero_bind.
  { destruct (truthy resetState).
    - destruct (head rows); intros ? [=].
    - unfold_sync.
      by destruct (writeMigration migrate _ _ _ _ _); intros ? [=]. }
  intros name. apply Hstart. intros ?. unfold afterDelete.
  apply Hstart. intros ?. unfold afterBulkInsert.
  apply sync_exits_zero_bind; [apply no_exit_when |]. intros ?.
  apply sync_exits_zero_bind; [apply no_exit_when |]. intros ?.
  destruct (opt_execute options);
    [apply sync_exits_zero_throw | apply sync_exits_zero_exit].
Qed.

(** A run that gets past the preview branch and whose [pruneOldMigFiles]
    is rejected ends with that rejection unhandled: the [then] of line 156
    has no [catch] behind it. *)
Theorem prune_rejection_is_unhandled rows srows current m e :
  compares rows srows current m →
  opt_preview options = false →
  truthy resetState = true ∨ commandsUp m ≠ [] →
  pruneOldMigFiles migrate (revision_of (head rows)) migrationsDir options
    = Rejected e →
  main.2 = Unhandled e.
Proof.
  intros Hcmp Hprev Hchg Hprune.
  rewrite (main_compares _ _ _ _ Hcmp). unfold report_and_save.
  assert (negb (truthy resetState)
            && bool_decide (length (commandsUp m) = 0) = false) as ->.
  { destruct Hchg as [-> | Hne]; [done |].
    rewrite bool_decide_eq_false_2; [apply andb_false_r |].
    by destruct (commandsUp m). }
  rewrite Hprev. unfold mbind, sync_bind. rewrite each_log.
  unfold_sync. by rewrite Hprune.
Qed.

(** A run without [--preview], [--reset-state] and [--execute] in which
    changes are found and every call succeeds: the change log is printed,
    old migration files are pruned, the migration is written, the states
    after the last executed revision are deleted, the new state is inserted
    under the new revision and the written migration's name, and the
    process is left with status 0. *)
Theorem changes_are_saved rows srows current m info :
  compares rows srows current m →
  opt_preview options = false →
  truthy resetState = false →
  opt_execute options = false →
  commandsUp m ≠ [] →
  pruneOldMigFiles migrate (revision_of (head rows)) migrationsDir options
    = Resolved tt →
  writeMigration migrate (RevOf (now host)) m migrationsDir
    (or_default (opt_name options) "noname") (or_default (opt_comment options) "")
    = Normal info →
  delete_where host (sql_delete_states ">" (revision_of (head rows)))
    = Resolved tt →
  (∀ rows', bulkInsert host "SequelizeMetaMigrations" rows' = Resolved tt) →
  let saved :=
    [ {| rec_revision := RevOf (now host);
         rec_name := info_name info;
         rec_state := JSON_stringify host
                        {| cur_tables := current;
                           cur_revision := RevOf (now host) |} |} ] in
  main =
    (first_calls ++ [state_call rows] ++ actions_log m ++
     [ Invoke (PruneOldMigFiles (revision_of (head rows)) migrationsDir);
       WriteMigration (RevOf (now host)) m migrationsDir
         (or_default (opt_name options) "noname")
         (or_default (opt_comment options) "");
       ConsoleLog ("New migration to revision " +:+ now host
                     +:+ " has been saved to file '" +:+ filename info +:+ "'");
       Invoke (SequelizeQuery
                 (sql_delete_states ">" (revision_of (head rows))) DELETE);
       Invoke (BulkInsert "SequelizeMetaMigrations" saved) ]
     ++ (if opt_verbose options then [ConsoleLog "Updated state on DB."] else []),
     Exited 0).
Proof.
  intros Hcmp Hprev Hreset Hx Hne Hprune Hwrite Hdel Hins saved.
  rewrite (main_compares _ _ _ _ Hcmp). unfold report_and_save.
  rewrite Hreset.
  rewrite bool_decide_eq_false_2 by (by destruct (commandsUp m)).
  rewrite Hprev. unfold mbind, sync_bind. rewrite each_log.
  unfold afterPrune, afterDelete, afterBulkInsert, current_revision.
  rewrite Hreset, Hx. unfold_sync. rewrite Hprune. cbn.
  rewrite Hwrite. cbn. rewrite Hdel. cbn. rewrite Hins. cbn.
  unfold prepend, actions_log. cbn.
  destruct (opt_verbose options); cbn; by rewrite <- ?app_assoc.
Qed.

(** *** Every run ends in one of the ways of [Ends] *)

Ltac flat :=
  unfold prepend; cbn [fst snd];
  repeat (progress (cbn [app]; rewrite <- ?app_assoc)).

Lemma handler_reports e : run_handler handler e = (reports e, Drained).
Proof. unfold run_handler, handler, reports. by destruct (opt_debug options). Qed.

Lemma changed_guard m :
  changed m ↔
  negb (truthy resetState) && bool_decide (length (commandsUp m) = 0) = false.
Proof.
  unfold changed. destruct (truthy resetState); simpl.
  - split; [done | by left].
  - rewrite bool_decide_eq_false. destruct (commandsUp m); simpl.
    + split; [by intros [| []] | done].
    + split; [done | by right].
Qed.

Lemma main_help : opt_help options = true → main = (usage_log, Exited 0).
Proof.
  intros Hhelp. unfold main, show_help. rewrite Hhelp.
  unfold mbind, sync_bind. cbn [sbind console_log emit].
  by rewrite each_log.
Qed.

Lemma main_prunes rows srows current m :
  compares rows srows current m →
  changed m →
  opt_preview options = false →
  main =
    prepend (compared rows m
               ++ (start (prune_call rows)
                     (pruneOldMigFiles migrate (revision_of (head rows))
                        migrationsDir options)).1)
      (then_only
         (pruneOldMigFiles migrate (revision_of (head rows)) migrationsDir options)
         (afterPrune (head rows) (revision_of (head rows))
            {| cur_tables := current;
               cur_revision := current_revision (revision_of (head rows)) |} m)).
Proof.
  intros Hcmp Hchg Hprev. rewrite (main_compares _ _ _ _ Hcmp).
  unfold report_and_save. apply changed_guard in Hchg. rewrite Hchg, Hprev.
  unfold mbind, sync_bind. rewrite each_log. unfold compared, prune_call.
  fold (actions_log m).
  destruct (pruneOldMigFiles migrate _ _ _) as [[] | e]; simpl;
    unfold prepend; simpl; by rewrite <- ?app_assoc.
Qed.

Lemma main_names rows srows current m tr name :
  prunes rows srows current m →
  Named rows m tr name →
  main =
    prepend (compared rows m ++ Invoke (prune_call rows) :: tr
               ++ (start (delete_call rows)
                     (delete_where host (delete_sql rows))).1)
      (then_catch (delete_where host (delete_sql rows))
         (afterDelete name [state_record rows current name]) handler).
Proof.
  intros (Hcmp & Hchg & Hprev & Hprune) Hname.
  rewrite (main_prunes _ _ _ _ Hcmp Hchg Hprev), Hprune.
  cbn [then_only start fst]. unfold afterPrune, state_record, delete_call, delete_sql.
  destruct Hname as [row Hreset Hrow | info Hreset Hinfo].
  - rewrite Hreset, Hrow. cbn [mbind mret sync_bind sync_ret sbind sret app].
    destruct (delete_where host _) as [[] | e]; cbn; unfold prepend; cbn;
      by rewrite <- ?app_assoc.
  - rewrite Hreset. unfold written in Hinfo. cbn [cur_revision].
    unfold_sync. rewrite Hinfo.
    destruct (delete_where host _) as [[] | e]; cbn; unfold prepend; cbn;
      by rewrite <- ?app_assoc.
Qed.

Lemma main_ends : Ends main.
Proof.
  destruct (opt_help options) eqn:Hhelp.
  { rewrite (main_help Hhelp). by constructor. }
  destruct (createTable host "SequelizeMeta") as [[] | e] eqn:Hmeta.
  2: { replace main with (rejected (CreateTable "SequelizeMeta") e, Drained);
         [by constructor |].
       unfold main. rewrite Hhelp. unfold_sync. rewrite Hmeta.
       cbn [then_catch run_script]. by rewrite handler_reports. }
  destruct (createTable host "SequelizeMetaMigrations") as [[] | e] eqn:Hmm.
  2: { replace main with
         (Invoke (CreateTable "SequelizeMeta")
            :: rejected (CreateTable "SequelizeMetaMigrations") e, Drained);
         [by constructor |].
       unfold main, afterMeta. rewrite Hhelp. unfold_sync. rewrite Hmeta.
       cbn [then_catch run_script]. rewrite Hmm.
       cbn [then_catch run_script]. by rewrite handler_reports. }
  destruct (select_name host sql_last_executed) as [rows | e] eqn:Hrows.
  2: { replace main with
         (Invoke (CreateTable "SequelizeMeta")
            :: Invoke (CreateTable "SequelizeMetaMigrations")
            :: rejected (SequelizeQuery sql_last_executed SELECT) e, Drained);
         [by constructor |].
       unfold main, afterMeta, afterMetaMigrations. rewrite Hhelp. unfold_sync.
       rewrite Hmeta. cbn [then_catch run_script]. rewrite Hmm.
       cbn [then_catch run_script]. rewrite Hrows.
       cbn [then_catch run_script]. by rewrite handler_reports. }
  assert (Hans : answers rows) by done.
  destruct (negb (bool_decide (is_Some (head rows))) && truthy resetState)
    eqn:Hguard.
  { apply andb_true_iff in Hguard as [Hnone Hreset].
    apply negb_true_iff, bool_decide_eq_false in Hnone.
    assert (head rows = None) as Hhead.
    { destruct (head rows); [| done]. destruct Hnone. by eexists. }
    replace main with (first_calls, Exited 0);
      [by apply (ends_nothing_to_reset rows) |].
    rewrite (main_answers rows Hans). cbn [then_catch]. unfold onLastExecuted.
    by rewrite Hhead, Hreset. }
  assert (Hstop : head rows = None → truthy resetState = false).
  { intros Hhead. rewrite Hhead in Hguard. by destruct (truthy resetState). }
  destruct (select_state host (sql_state_of (revision_of (head rows))))
    as [srows | e] eqn:Hsrows.
  2: { replace main with
         (first_calls
            ++ rejected (SequelizeQuery (sql_state_of (revision_of (head rows)))
                           SELECT) e, Drained);
         [by apply ends_last_state |].
       rewrite (main_answers rows Hans). cbn [then_catch].
       unfold onLastExecuted. rewrite Hguard. unfold_sync. rewrite Hsrows.
       cbn [then_catch]. by rewrite handler_reports. }
  destruct (reverseModels migrate) as [current | e] eqn:Hcur.
  2: { replace main with (first_calls ++ [state_call rows] ++ reports e, Drained);
         [by apply (ends_models rows srows) |].
       rewrite (main_answers rows Hans). cbn [then_catch].
       unfold onLastExecuted, onLastMigration. rewrite Hguard. unfold_sync.
       rewrite Hsrows. cbn [then_catch]. rewrite Hcur.
       cbn. by rewrite handler_reports. }
  destruct (assemble (previous_tables (head srows)) current) as [m | e] eqn:Hm.
  2: { replace main with (first_calls ++ [state_call rows] ++ reports e, Drained);
         [by apply (ends_assemble rows srows current) |].
       rewrite (main_answers rows Hans). cbn [then_catch].
       unfold onLastExecuted, onLastMigration. rewrite Hguard. unfold_sync.
       rewrite Hsrows. cbn [then_catch]. rewrite Hcur. cbn. rewrite Hm.
       cbn. by rewrite handler_reports. }
  assert (Hcmp : compares rows srows current m) by done.
  destruct (negb (truthy resetState)
              && bool_decide (length (commandsUp m) = 0)) eqn:Hchg.
  { apply andb_true_iff in Hchg as [Hreset Hup].
    apply negb_true_iff in Hreset. apply bool_decide_eq_true in Hup.
    apply nil_length_inv in Hup.
    replace main with
      (first_calls ++ [state_call rows; ConsoleLog "No changes found"], Exited 0);
      [by apply (ends_no_changes rows srows current m) |].
    rewrite (main_compares _ _ _ _ Hcmp). unfold report_and_save.
    by rewrite Hreset, Hup. }
  pose proof Hchg as Hgo.
  apply changed_guard in Hchg.
  destruct (opt_preview options) eqn:Hprev.
  { replace main with (compared rows m ++ preview_log m, Exited 0);
      [by apply (ends_preview rows srows current m) |].
    rewrite (main_compares _ _ _ _ Hcmp). unfold report_and_save.
    rewrite Hgo, Hprev. unfold mbind, sync_bind. rewrite each_log.
    unfold prepend, compared, actions_log, preview_log. simpl.
    by rewrite <- ?app_assoc. }
  destruct (pruneOldMigFiles migrate (revision_of (head rows)) migrationsDir
              options) as [[] | e] eqn:Hprune.
  2: { rewrite (main_prunes _ _ _ _ Hcmp Hchg Hprev), Hprune. cbn.
       unfold prepend. cbn [fst snd]. rewrite app_nil_r.
       by apply (ends_prune rows srows current m e). }
  assert (Hpr : prunes rows srows current m) by done.
  assert (Hnamed : (∃ e, truthy resetState = false ∧ written rows m = Throw e)
                   ∨ ∃ tr name, Named rows m tr name).
  { destruct (truthy resetState) eqn:Hreset.
    - right. destruct (head rows) as [row |] eqn:Hrow.
      + exists [], (row_name row). by apply (named_reset _ _ row).
      + by specialize (Hstop eq_refl).
    - destruct (written rows m) as [info | e] eqn:Hinfo.
      + right. eexists _, _. by apply (named_written _ _ info).
      + left. by exists e. }
  destruct Hnamed as [(e & Hreset & Hthrow) | (tr & name & Hname)].
  { rewrite (main_prunes _ _ _ _ Hcmp Hchg Hprev), Hprune.
    cbn [then_only start fst]. unfold afterPrune. rewrite Hreset.
    unfold written in Hthrow. cbn [cur_revision]. unfold_sync. rewrite Hthrow.
    unfold prepend. cbn [fst snd]. rewrite <- ?app_assoc.
    by apply (ends_write rows srows current m e). }
  rewrite (main_names _ _ _ _ _ _ Hpr Hname).
  destruct (delete_where host (delete_sql rows)) as [[] | e] eqn:Hdel.
  2: { cbn [then_catch start fst]. rewrite handler_reports. flat.
       by apply (ends_delete rows srows current m tr name e). }
  cbn [then_catch start fst]. unfold afterDelete.
  destruct (bulkInsert host "SequelizeMetaMigrations"
              [state_record rows current name]) as [[] | e] eqn:Hins.
  2: { cbn -[run_handler]. rewrite handler_reports. flat.
       by apply (ends_insert rows srows current m tr name e). }
  destruct (opt_execute options) eqn:Hx.
  - replace (prepend _ _) with
      (saved rows current m tr name
         ++ reports (ReferenceError "info is not defined"), Drained);
      [by apply (ends_execute rows srows current m tr name) |].
    unfold saved, saved_log, afterBulkInsert, insert_call. rewrite Hx.
    by destruct (truthy resetState), (opt_verbose options);
      cbn -[run_handler]; rewrite handler_reports; flat.
  - replace (prepend _ _) with (saved rows current m tr name, Exited 0);
      [by apply (ends_saved rows srows current m tr name) |].
    unfold saved, saved_log, afterBulkInsert, insert_call. rewrite Hx.
    by destruct (truthy resetState), (opt_verbose options); cbn; flat.
Qed.

(** *** What a function on events makes of the parts of a trace *)

Section Parts.

Context {B : Type} (f : Event → option B).
Hypothesis f_log : ∀ line, f (ConsoleLog line) = None.

Lemma omap_logs {A} (g : A → string) (l : list A) :
  omap f ((λ v, ConsoleLog (g v)) <$> l) = [].
Proof. induction l as [| x l IH]; [done |]. cbn. by rewrite f_log. Qed.

Lemma omap_usage_log : omap f usage_log = [].
Proof. unfold usage_log. cbn [omap list_omap]. by rewrite f_log, omap_logs. Qed.

Lemma omap_actions_log m : omap f (actions_log m) = [].
Proof. apply omap_logs. Qed.

Lemma omap_preview_log m : omap f (preview_log m) = [].
Proof. unfold preview_log. cbn. by rewrite !f_log. Qed.

Lemma omap_saved_log name : omap f (saved_log name) = [].
Proof.
  unfold saved_log.
  destruct (truthy resetState), (opt_verbose options); cbn; by rewrite ?f_log.
Qed.

Lemma omap_compared rows m :
  omap f (compared rows m) = omap f (first_calls ++ [state_call rows]).
Proof.
  unfold compared. by rewrite app_assoc, omap_app, omap_actions_log, app_nil_r.
Qed.

End Parts.

Lemma omap_reports {B} (f : Event → option B) e :
  (∀ e', f (ConsoleError e') = None) → omap f (reports e) = [].
Proof.
  intros Hf. unfold reports. destruct (opt_debug options); cbn; by rewrite ?Hf.
Qed.

Ltac parts :=
  unfold saved, rejected;
  repeat (progress
    (rewrite ?omap_app, ?omap_usage_log, ?omap_compared, ?omap_reports,
       ?omap_actions_log, ?omap_preview_log, ?omap_saved_log by done;
     cbn [omap list_omap app first_calls state_call kind_of error_of
          chain_rejection_of insert_of write_of chain_step
          prune_call delete_call insert_call write_event saved_to]));
  rewrite ?app_nil_r.

(** The kinds of call of a run are an initial part of the plan. *)
Lemma ends_plan r : Ends r → kinds r.1 `prefix_of` plan.
Proof.
  unfold kinds, plan.
  destruct 1;
    repeat match goal with
      | H : prunes _ _ _ _ |- _ => destruct H as (? & ? & ? & ?)
      | H : Named _ _ _ _ |- _ => destruct H
      | H : opt_preview options = _ |- _ => rewrite H
      | H : truthy resetState = _ |- _ => rewrite H
      end;
    cbn [fst]; parts;
    destruct (opt_preview options), (truthy resetState); by eexists.
Qed.

Lemma omap_In {B} (f : Event → option B) tr ev y :
  In ev tr → f ev = Some y → y ∈ omap f tr.
Proof.
  intros Hin Hf. apply list_elem_of_omap. exists ev.
  by rewrite list_elem_of_In.
Qed.

(** A rejected chain step is the last call of a run, followed only by what
    the handler prints. *)
Lemma ends_rejection r c e :
  Ends r → chain_step c = true → In (Rejection c e) r.1 →
  r.2 = Drained ∧ ∃ tr, r.1 = tr ++ Rejection c e :: reports e.
Proof.
  intros Hr Hc Hin.
  assert ((c, e) ∈ omap chain_rejection_of r.1) as Hrej.
  { apply (omap_In _ _ _ _ Hin). simpl. by rewrite Hc. }
  destruct Hr;
    repeat match goal with
      | H : Named _ _ _ _ |- _ => destruct H
      end;
    cbn [fst snd] in *; clear Hin; revert Hrej; parts.
  all: try (by intros ?%elem_of_nil).
  all: intros [= -> ->]%list_elem_of_singleton; split; [done |].
  all: match goal with |- ∃ tr, ?l = tr ++ ?s => change (s `suffix_of` l) end.
  all: repeat first [reflexivity | apply suffix_app_r | apply suffix_cons_r].
Qed.


Lemma errors_reports e :
  omap error_of (reports e) = if opt_debug options then [e] else [].
Proof. unfold reports. by destruct (opt_debug options). Qed.

(** [console.error] prints only with [--debug], and what it prints is the
    last event of a run that ends without leaving the process. *)
Lemma ends_error r e :
  Ends r → In (ConsoleError e) r.1 →
  opt_debug options = true ∧ r.2 = Drained ∧ last r.1 = Some (ConsoleError e).
Proof.
  intros Hr Hin.
  assert (e ∈ omap error_of r.1) as Herr by by apply (omap_In _ _ _ _ Hin).
  destruct Hr;
    repeat match goal with
      | H : Named _ _ _ _ |- _ => destruct H
      end;
    cbn [fst snd] in *; clear Hin; revert Herr; parts;
    rewrite ?errors_reports; unfold reports;
    destruct (opt_debug options); cbn [app];
    try (by intros ?%elem_of_nil).
  all: intros ->%list_elem_of_singleton; split_and!; try done.
  all: by rewrite ?last_app_cons, ?last_cons_cons.
Qed.

(** With [--debug], a run that ends without leaving the process has
    printed an error last. *)
Lemma ends_drained_debug r :
  Ends r → opt_debug options = true → r.2 = Drained →
  ∃ e, last r.1 = Some (ConsoleError e).
Proof.
  intros Hr Hd.
  destruct Hr; intros [=];
    repeat match goal with
      | H : Named _ _ _ _ |- _ => destruct H
      end;
    cbn [fst]; unfold saved, rejected, reports; rewrite Hd; eexists;
    repeat (progress (cbn [app first_calls];
                      rewrite ?last_app_cons, ?last_cons_cons));
    reflexivity.
Qed.

Lemma quiet_of_errors tr :
  omap error_of tr = [] → Forall (λ ev, error_output ev = false) tr.
Proof.
  induction tr as [| ev tr IH]; [constructor |]. cbn.
  destruct ev; cbn; try done; intros Htr; constructor; auto.
Qed.

(** A trace that ends in what a handler prints, with no [console.error]
    before it. *)
Definition ends_in_report (tr : list Event) : Prop :=
  ∃ before e, tr = before ++ reports e
              ∧ Forall (λ ev, error_output ev = false) before.

Lemma ends_in_report_base e : ends_in_report (reports e).
Proof. exists [], e. by split; [| constructor]. Qed.

Lemma ends_in_report_app l tr :
  Forall (λ ev, error_output ev = false) l →
  ends_in_report tr → ends_in_report (l ++ tr).
Proof.
  intros Hl (before & e & -> & Hq). exists (l ++ before), e.
  split; [by rewrite app_assoc | by apply Forall_app].
Qed.

Lemma ends_in_report_cons ev tr :
  error_output ev = false → ends_in_report tr → ends_in_report (ev :: tr).
Proof.
  intros Hev Htr. apply (ends_in_report_app [ev]); [| done].
  by constructor.
Qed.

(** A run that ends without leaving the process ends in what a handler
    prints, and [console.error] is not called before. *)
Lemma ends_report r : Ends r → r.2 = Drained → ends_in_report r.1.
Proof.
  destruct 1; intros [=];
    repeat match goal with
      | H : Named _ _ _ _ |- _ => destruct H
      end;
    cbn [fst]; unfold saved, rejected;
    repeat first
      [ apply ends_in_report_base
      | apply ends_in_report_app; [by apply quiet_of_errors; parts |]
      | apply ends_in_report_cons; [reflexivity |] ].
Qed.

(** A run that ends without leaving the process has a cause: a rejected
    chain step, an error thrown while the models are read or compared, or
    [--execute], with which every call of the plan has been made. *)
Lemma ends_drained r :
  Ends r → r.2 = Drained →
  (∃ c e, chain_step c = true ∧ In (Rejection c e) r.1)
  ∨ (∃ e, reverseModels migrate = Throw e)
  ∨ (∃ rows srows current e,
       select_name host sql_last_executed = Resolved rows ∧
       select_state host (sql_state_of (revision_of (head rows)))
         = Resolved srows ∧
       reverseModels migrate = Normal current ∧
       assemble (previous_tables (head srows)) current = Throw e)
  ∨ (opt_execute options = true ∧ kinds r.1 = plan).
Proof.
  destruct 1; intros [=]; cbn [fst].
  1-4, 7-8: left; eexists _, e; (split; [| unfold rejected;
    repeat (rewrite in_app_iff || simpl); eauto 12]); reflexivity.
  - right. left. by exists e.
  - right. right. left. exists rows, srows, current, e.
    by destruct H as (_ & _ & _ & ?).
  - right. right. right. split; [done |].
    destruct H as (? & ? & Hprev & ?). unfold kinds, plan. rewrite Hprev.
    destruct H0 as [row Hreset ? | info Hreset ?]; rewrite Hreset; by parts.
Qed.

Lemma named_quiet {B} (f : Event → option B) rows m tr name :
  (∀ line, f (ConsoleLog line) = None) →
  (∀ r m d n c, f (WriteMigration r m d n c) = None) →
  Named rows m tr name → omap f tr = [].
Proof.
  intros Hlog Hwrite []; [done |]. cbn. unfold write_event, saved_to.
  by rewrite Hlog, Hwrite.
Qed.

Lemma named_kinds rows m tr name :
  Named rows m tr name →
  kinds tr = if truthy resetState then [] else [KWrite].
Proof. by intros [row -> ? | info -> ?]. Qed.

Lemma named_written_in rows m tr name :
  Named rows m tr name → truthy resetState = false → In (write_event rows m) tr.
Proof. intros [row -> ? | info ? ?]; [done | by left]. Qed.

(** The row a run inserts is the one of lines 175-179 for the name of
    lines 157-171: with [--reset-state] no migration is written, else the
    migration was written before under the row's revision. *)
Lemma ends_inserted r table recs :
  Ends r → In (Invoke (BulkInsert table recs)) r.1 →
  ∃ rows srows current m tr name,
    prunes rows srows current m ∧ Named rows m tr name ∧
    table = "SequelizeMetaMigrations" ∧
    recs = [state_record rows current name] ∧
    (truthy resetState = true → KWrite ∉ kinds r.1) ∧
    (truthy resetState = false → In (write_event rows m) r.1).
Proof.
  intros Hr Hin.
  assert ((table, recs) ∈ omap insert_of r.1) as Hins
    by by apply (omap_In _ _ _ _ Hin).
  destruct Hr; cbn [fst snd] in *; clear Hin; revert Hins; parts;
    try match goal with
      | H : Named _ _ _ _ |- _ => rewrite (named_quiet insert_of _ _ _ _) by done
      end;
    cbn [app]; try (by intros ?%elem_of_nil).
  all: intros [= -> ->]%list_elem_of_singleton.
  all: exists rows, srows, current, m, tr, name; split_and!; try done.
  all: try (intros Hreset; pose proof (named_kinds _ _ _ _ H0) as Hk;
            unfold kinds in *; parts; rewrite Hk, Hreset; compute_done).
  all: intros Hreset; pose proof (named_written_in _ _ _ _ H0 Hreset);
         repeat (rewrite in_app_iff || simpl); tauto.
Qed.

(** A run that leaves the process does so on [--help], with nothing to
    reset to, on the report of no changes, or with every call of the plan
    made. *)
Lemma ends_exit r code :
  Ends r → r.2 = Exited code →
  opt_help options = true
  ∨ (truthy resetState = true ∧ r.1 = first_calls)
  ∨ (truthy resetState = false ∧
     last r.1 = Some (ConsoleLog "No changes found") ∧
     kinds r.1 = [KCreateTable; KCreateTable; KSelect; KSelect])
  ∨ (opt_execute options = false ∨ opt_preview options = true) ∧ kinds r.1 = plan.
Proof.
  destruct 1; intros [=]; cbn [fst].
  - by left.
  - right. by left.
  - right. right. left. split_and!; [done | |].
    + by rewrite last_app_cons.
    + unfold kinds. by parts.
  - do 3 right. split; [by right |]. unfold kinds, plan. rewrite H1. by parts.
  - do 3 right. split; [by left |].
    destruct H as (? & ? & Hprev & ?). unfold kinds, plan. rewrite Hprev.
    destruct H0 as [row Hreset ? | info Hreset ?]; rewrite Hreset; by parts.
Qed.




(** *** The script's behaviour, whatever the database and the library answer *)

(** As everywhere in this part, a run starts with the models module
    loaded, each call on the database answers with a promise, and each call
    on the library returns or throws. *)

(** With [--help] the script prints the usage text, one line for each
    option, and leaves with status 0: no call is made on the database or on
    the library, whatever the other options are. *)
Theorem help_prints_usage_only :
  opt_help options = true →
  main =
    (ConsoleLog ("Sequelize migration creation tool" +:+ nl +:+ nl +:+ "Usage:")
       :: ((λ option, ConsoleLog (usage_line option)) <$> optionDefinitions),
     Exited 0)
  ∧ kinds main.1 = [].
Proof.
  intros Hhelp. rewrite (main_help Hhelp). split; [done |].
  apply (omap_usage_log kind_of). done.
Qed.

(** The calls of every run, in order, are an initial part of one fixed
    plan: the two meta tables, the two queries, then, unless [--preview] is
    given, the pruning, the writing of the migration (not with
    [--reset-state]), the DELETE and the bulk insert.  No call is made twice
    or out of order, and a call is only made after those before it. *)
Theorem steps_follow_plan : kinds main.1 `prefix_of` plan.
Proof. apply ends_plan, main_ends. Qed.

(** Once a step of the chain that has a handler behind it is rejected,
    the run makes no further call: the handler prints the reason with
    [--debug] and nothing without it, and the run ends without leaving the
    process. *)
Theorem rejection_is_reported_last c e :
  chain_step c = true →
  In (Rejection c e) main.1 →
  main.2 = Drained
  ∧ ∃ tr, main.1
          = tr ++ Rejection c e
                :: (if opt_debug options then [ConsoleError e] else []).
Proof. apply ends_rejection, main_ends. Qed.


(** [console.error] prints only with [--debug] and at most once: the
    error it prints is the last event of the run, no event before it is a
    [console.error], and the run then ends without leaving the process. *)
Theorem error_is_printed_last e :
  In (ConsoleError e) main.1 →
  opt_debug options = true
  ∧ main.2 = Drained
  ∧ ∃ tr, main.1 = tr ++ [ConsoleError e]
          ∧ Forall (λ ev, error_output ev = false) tr.
Proof.
  intros Hin.
  destruct (ends_error main e main_ends Hin) as (Hdebug & Hdrained & _).
  split_and!; [done | done |].
  destruct (ends_report main main_ends Hdrained) as (tr & e' & Htr & Hquiet).
  exists tr. split; [| done]. rewrite Htr in Hin |- *.
  unfold reports in *. rewrite Hdebug in *.
  apply in_app_or in Hin as [Hin | [[= ->] | []]]; [| done].
  rewrite Forall_forall in Hquiet.
  by apply list_elem_of_In, Hquiet in Hin.
Qed.

(** A run that ends without leaving the process has a cause: a step of
    the chain was rejected, the library threw while the models were read or
    compared, or [--execute] was given, with which every call of the plan
    has been made.  With [--debug] the last thing such a run prints is an
    error. *)
Theorem silent_end_has_a_cause :
  main.2 = Drained →
  ((∃ c e, chain_step c = true ∧ In (Rejection c e) main.1)
   ∨ (∃ e, reverseModels migrate = Throw e)
   ∨ (∃ rows srows current e,
        select_name host sql_last_executed = Resolved rows ∧
        select_state host (sql_state_of (revision_of (head rows)))
          = Resolved srows ∧
        reverseModels migrate = Normal current ∧
        assemble (previous_tables (head srows)) current = Throw e)
   ∨ (opt_execute options = true ∧ kinds main.1 = plan))
  ∧ (opt_debug options = true → ∃ e, last main.1 = Some (ConsoleError e)).
Proof.
  intros Hd. split.
  - by apply ends_drained; [apply main_ends |].
  - intros Hdebug. by apply ends_drained_debug; [apply main_ends | |].
Qed.

(** Whenever a run sends the bulk insert, it is into
    [SequelizeMetaMigrations] and of one row, whose state is the current
    state under the row's revision.  With [--reset-state] the row has the
    name of the last executed migration and no migration was written;
    without it, the migration was written before under the row's revision,
    and the row has the name [writeMigration] returned. *)
Theorem saved_row_matches_migration table recs :
  In (Invoke (BulkInsert table recs)) main.1 →
  ∃ rows current name,
    select_name host sql_last_executed = Resolved rows ∧
    reverseModels migrate = Normal current ∧
    table = "SequelizeMetaMigrations" ∧
    recs = [ {| rec_revision := current_revision (revision_of (head rows));
                rec_name := name;
                rec_state :=
                  JSON_stringify host
                    {| cur_tables := current;
                       cur_revision :=
                         current_revision (revision_of (head rows)) |} |} ] ∧
    (truthy resetState = true →
       (∃ row, head rows = Some row ∧ name = row_name row)
       ∧ KWrite ∉ kinds main.1) ∧
    (truthy resetState = false →
       ∃ m info,
         In (WriteMigration (current_revision (revision_of (head rows))) m
               migrationsDir (or_default (opt_name options) "noname")
               (or_default (opt_comment options) "")) main.1 ∧
         writeMigration migrate (current_revision (revision_of (head rows))) m
           migrationsDir (or_default (opt_name options) "noname")
           (or_default (opt_comment options) "") = Normal info ∧
         name = info_name info).
Proof.
  intros Hin.
  destruct (ends_inserted main table recs main_ends Hin)
    as (rows & srows & current & m & tr & name & Hpr & Hname & -> & -> & Hr & Hw).
  destruct Hpr as (((_ & _ & _ & Hrows) & _ & _ & Hcur & _) & _).
  exists rows, current, name. split_and!; try done.
  - intros Hreset. split; [| by apply Hr].
    destruct Hname as [row _ Hrow | info Hno _]; [by exists row | congruence].
  - intros Hreset. destruct Hname as [row Hyes _ | info _ Hinfo]; [congruence |].
    exists m, info. split_and!; [by apply Hw | done | done].
Qed.


(** A run that leaves the process does so for one of four reasons:
    [--help]; [--reset-state] with no executed migration, right after the
    first query; the report of no changes; or every call of the plan has
    been made (with [--preview], the calls up to the second query).  So
    without [--help] and [--preview], a run that leaves the process and does
    not report no changes has saved the state, or had nothing to reset
    it to. *)
Theorem exit_has_a_reason code :
  main.2 = Exited code →
  opt_help options = true
  ∨ (truthy resetState = true ∧ main.1 = first_calls)
  ∨ (truthy resetState = false ∧
     last main.1 = Some (ConsoleLog "No changes found") ∧
     kinds main.1 = [KCreateTable; KCreateTable; KSelect; KSelect])
  ∨ (opt_execute options = false ∨ opt_preview options = true)
    ∧ kinds main.1 = plan.
Proof. apply ends_exit, main_ends. Qed.

(** *** Runs that fail on the way *)

(** An error thrown by the library while the models are read or the
    states are compared is taken by the handler of line 197: the run ends
    after the second query without leaving the process, the error is
    printed only with [--debug], and nothing is pruned, written or saved. *)
Theorem comparison_error_is_swallowed rows srows e :
  answers rows →
  (head rows = None → truthy resetState = false) →
  select_state host (sql_state_of (revision_of (head rows))) = Resolved srows →
  reverseModels migrate = Throw e
  ∨ (∃ current, reverseModels migrate = Normal current ∧
                assemble (previous_tables (head srows)) current = Throw e) →
  main = (first_calls ++ [state_call rows]
            ++ (if opt_debug options then [ConsoleError e] else []),
          Drained).
Proof.
  intros Hans Hstop Hsrows Hthrow. rewrite (main_answers rows Hans).
  cbn [then_catch]. unfold onLastExecuted, onLastMigration, state_call.
  assert (negb (bool_decide (is_Some (head rows))) && truthy resetState = false)
    as ->.
  { destruct (head rows) as [row |] eqn:Hrow.
    - rewrite bool_decide_eq_true_2; [done | by eexists].
    - rewrite (Hstop eq_refl). apply andb_false_r. }
  unfold_sync. rewrite Hsrows. cbn [then_catch].
  destruct Hthrow as [Hmodels | (current & Hmodels & Hasm)]; rewrite Hmodels;
    cbn -[run_handler]; rewrite ?Hasm; cbn -[run_handler];
    by rewrite handler_reports.
Qed.

(** An error thrown by [writeMigration] is taken by no handler: the run
    ends with it unhandled, after the pruning and before any state row is
    deleted or inserted. *)
Theorem write_error_is_unhandled rows srows current m e :
  compares rows srows current m →
  opt_preview options = false →
  truthy resetState = false →
  commandsUp m ≠ [] →
  pruneOldMigFiles migrate (revision_of (head rows)) migrationsDir options
    = Resolved tt →
  writeMigration migrate (RevOf (now host)) m migrationsDir
    (or_default (opt_name options) "noname") (or_default (opt_comment options) "")
    = Throw e →
  main =
    (first_calls ++ [state_call rows] ++ actions_log m ++
     [ Invoke (PruneOldMigFiles (revision_of (head rows)) migrationsDir);
       WriteMigration (RevOf (now host)) m migrationsDir
         (or_default (opt_name options) "noname")
         (or_default (opt_comment options) "") ],
     Unhandled e).
Proof.
  intros Hcmp Hprev Hreset Hne Hprune Hwrite.
  rewrite (main_prunes _ _ _ _ Hcmp (or_intror Hne) Hprev), Hprune.
  cbn [then_only start fst]. unfold afterPrune, current_revision.
  rewrite Hreset. cbn [cur_revision]. unfold_sync. rewrite Hwrite.
  unfold compared, prune_call. by flat.
Qed.

(** When the DELETE or the bulk insert is rejected, the migration file
    has been written and announced, no state row is inserted for it, and the
    run ends without leaving the process; the reason is printed only with
    [--debug].  After a rejected bulk insert the states behind the last
    executed revision have been deleted as well. *)
Theorem rejected_save_leaves_migration_written rows srows current m info e :
  compares rows srows current m →
  opt_preview options = false →
  truthy resetState = false →
  commandsUp m ≠ [] →
  pruneOldMigFiles migrate (revision_of (head rows)) migrationsDir options
    = Resolved tt →
  writeMigration migrate (RevOf (now host)) m migrationsDir
    (or_default (opt_name options) "noname") (or_default (opt_comment options) "")
    = Normal info →
  let delete :=
    SequelizeQuery (sql_delete_states ">" (revision_of (head rows))) DELETE in
  let state_rows :=
    [ {| rec_revision := RevOf (now host);
         rec_name := info_name info;
         rec_state := JSON_stringify host
                        {| cur_tables := current;
                           cur_revision := RevOf (now host) |} |} ] in
  let so_far :=
    first_calls ++ [state_call rows] ++ actions_log m ++
    [ Invoke (PruneOldMigFiles (revision_of (head rows)) migrationsDir);
      WriteMigration (RevOf (now host)) m migrationsDir
        (or_default (opt_name options) "noname")
        (or_default (opt_comment options) "");
      ConsoleLog ("New migration to revision " +:+ now host
                    +:+ " has been saved to file '" +:+ filename info +:+ "'");
      Invoke delete ] in
  (delete_where host (sql_delete_states ">" (revision_of (head rows)))
     = Rejected e →
   main = (so_far ++ Rejection delete e
             :: (if opt_debug options then [ConsoleError e] else []),
           Drained))
  ∧ (delete_where host (sql_delete_states ">" (revision_of (head rows)))
       = Resolved tt →
     bulkInsert host "SequelizeMetaMigrations" state_rows = Rejected e →
     main = (so_far ++
             [ Invoke (BulkInsert "SequelizeMetaMigrations" state_rows);
               Rejection (BulkInsert "SequelizeMetaMigrations" state_rows) e ]
             ++ (if opt_debug options then [ConsoleError e] else []),
             Drained)).
Proof.
  intros Hcmp Hprev Hreset Hne Hprune Hwrite delete state_rows so_far.
  assert (Hname : Named rows m [write_event rows m; saved_to rows info]
                    (info_name info)).
  { apply named_written; [done |]. unfold written, current_revision.
    by rewrite Hreset. }
  assert (Hpr : prunes rows srows current m) by by split_and!; [| right | |].
  rewrite (main_names _ _ _ _ _ _ Hpr Hname).
  subst delete state_rows so_far.
  unfold compared, prune_call, write_event, saved_to, delete_call, delete_sql,
    state_record, current_revision.
  rewrite Hreset. cbn [revision_str]. split.
  - intros Hdel. rewrite Hdel. cbn [then_catch start fst].
    rewrite handler_reports. by flat.
  - intros Hdel Hins. rewrite Hdel. cbn [then_catch start fst].
    unfold afterDelete. unfold_sync. rewrite Hins. cbn -[run_handler].
    rewrite handler_reports. by flat.
Qed.

(** *** Runs that save *)

(** With [--reset-state], without [--preview], and with a last executed
    migration, a run in which every call succeeds writes no migration:
    after the change log it prunes the old files, deletes the states from
    the last executed revision on ([>=]), inserts the current state under
    that revision and the name of the last executed migration and reports
    the reset, whether the forward commands are empty or not.  Without
    [--execute] it then leaves with status 0; with [--execute] it fails
    there on the read of [info] at line 191, the error is printed only with
    [--debug], and the run ends without leaving the process.  The saved
    state is not looked at: the change log is that of the models against
    the empty state. *)
Theorem reset_state_is_saved rows srows current m row :
  compares rows srows current m →
  head rows = Some row →
  truthy resetState = true →
  opt_preview options = false →
  pruneOldMigFiles migrate (revision_of (head rows)) migrationsDir options
    = Resolved tt →
  delete_where host (sql_delete_states ">=" (revision_of (head rows)))
    = Resolved tt →
  (∀ rows', bulkInsert host "SequelizeMetaMigrations" rows' = Resolved tt) →
  revision_of (head rows) = RevOf (split_first dash (row_name row))
  ∧ assemble no_tables current = Normal m
  ∧ main =
      (first_calls ++ [state_call rows] ++ actions_log m ++
       [ Invoke (PruneOldMigFiles (revision_of (head rows)) migrationsDir);
         Invoke (SequelizeQuery
                   (sql_delete_states ">=" (revision_of (head rows))) DELETE);
         Invoke (BulkInsert "SequelizeMetaMigrations"
                   [ {| rec_revision := revision_of (head rows);
                        rec_name := row_name row;
                        rec_state :=
                          JSON_stringify host
                            {| cur_tables := current;
                               cur_revision := revision_of (head rows) |} |} ]);
         ConsoleLog ("Reset state to latest migration of '" +:+ row_name row
                       +:+ "' has been successfull") ]
       ++ (if opt_verbose options then [ConsoleLog "Updated state on DB."] else [])
       ++ (if opt_execute options
           then if opt_debug options
                then [ConsoleError (ReferenceError "info is not defined")]
                else []
           else []),
       if opt_execute options then Drained else Exited 0).
Proof.
  intros Hcmp Hrow Hreset Hprev Hprune Hdel Hins.
  split; [by rewrite Hrow |]. split.
  { destruct Hcmp as (_ & _ & _ & _ & Hm). unfold previous_tables in Hm.
    rewrite Hreset in Hm. by destruct (head srows). }
  assert (Hname : Named rows m [] (row_name row)) by by apply named_reset.
  assert (Hpr : prunes rows srows current m) by by split_and!; [| left | |].
  rewrite (main_names _ _ _ _ _ _ Hpr Hname).
  unfold compared, prune_call, delete_call, delete_sql, state_record,
    current_revision.
  rewrite Hreset, Hdel. cbn [then_catch start fst].
  unfold afterDelete, afterBulkInsert. unfold_sync. rewrite Hins, Hreset.
  destruct (opt_execute options), (opt_verbose options);
    cbn -[run_handler]; rewrite ?handler_reports; unfold reports;
    flat; by rewrite ?app_nil_r.
Qed.

(** With [--execute], a run in which changes are found and every call
    succeeds saves as it does without it, and then fails: the callback of
    the bulk insert reads [info] at line 191, outside the block that
    declares it.  The hint for the sequelize CLI is never printed and
    [process.exit] is never reached; the handler of line 194 takes the
    error, which is printed only with [--debug]. *)
Theorem execute_hint_is_never_printed rows srows current m info :
  compares rows srows current m →
  opt_preview options = false →
  truthy resetState = false →
  opt_execute options = true →
  commandsUp m ≠ [] →
  pruneOldMigFiles migrate (revision_of (head rows)) migrationsDir options
    = Resolved tt →
  writeMigration migrate (RevOf (now host)) m migrationsDir
    (or_default (opt_name options) "noname") (or_default (opt_comment options) "")
    = Normal info →
  delete_where host (sql_delete_states ">" (revision_of (head rows)))
    = Resolved tt →
  (∀ rows', bulkInsert host "SequelizeMetaMigrations" rows' = Resolved tt) →
  main =
    (first_calls ++ [state_call rows] ++ actions_log m ++
     [ Invoke (PruneOldMigFiles (revision_of (head rows)) migrationsDir);
       WriteMigration (RevOf (now host)) m migrationsDir
         (or_default (opt_name options) "noname")
         (or_default (opt_comment options) "");
       ConsoleLog ("New migration to revision " +:+ now host
                     +:+ " has been saved to file '" +:+ filename info +:+ "'");
       Invoke (SequelizeQuery
                 (sql_delete_states ">" (revision_of (head rows))) DELETE);
       Invoke (BulkInsert "SequelizeMetaMigrations"
                 [ {| rec_revision := RevOf (now host);
                      rec_name := info_name info;
                      rec_state :=
                        JSON_stringify host
                          {| cur_tables := current;
                             cur_revision := RevOf (now host) |} |} ]) ]
     ++ (if opt_verbose options then [ConsoleLog "Updated state on DB."] else [])
     ++ (if opt_debug options
         then [ConsoleError (ReferenceError "info is not defined")] else []),
     Drained).
Proof.
  intros Hcmp Hprev Hreset Hx Hne Hprune Hwrite Hdel Hins.
  assert (Hname : Named rows m [write_event rows m; saved_to rows info]
                    (info_name info)).
  { apply named_written; [done |]. unfold written, current_revision.
    by rewrite Hreset. }
  assert (Hpr : prunes rows srows current m) by by split_and!; [| right | |].
  rewrite (main_names _ _ _ _ _ _ Hpr Hname).
  unfold compared, prune_call, write_event, saved_to, delete_call, delete_sql,
    state_record, current_revision.
  rewrite Hreset, Hdel. cbn [then_catch start fst revision_str].
  unfold afterDelete, afterBulkInsert. unfold_sync. rewrite Hins, Hreset, Hx.
  by destruct (opt_verbose options); cbn -[run_handler];
    rewrite handler_reports; flat.
Qed.
End Makemigration.

Arguments main {Tables Action}.
Arguments assemble {Tables Action}.
Arguments pipeline {Tables Action}.
Arguments compares {Tables Action}.
Arguments answers {Tables}.
Arguments revision_of : clear implicits.
Arguments afterBulkInsert : clear implicits.
Arguments handler : clear implicits.

(** ** A small project to run the script on *)

(** A schema is the list of its table names, an action its command.  The
    comparison creates the tables only the target has and drops those only
    the source has; sorting keeps the order. *)
Definition demo_migrate (models : list string) : Migrate (list string) string := {|
  reverseModels := Normal models;
  parseDifference := λ source target,
    Normal (((λ t, "createTable " +:+ t) <$> list_difference target source)
              ++ ((λ t, "dropTable " +:+ t) <$> list_difference source target));
  sortActions := λ actions, Normal actions;
  getMigration := λ actions,
    Normal {| commandsUp := actions; commandsDown := []; consoleOut := actions |};
  pruneOldMigFiles := λ _ _ _, Resolved tt;
  writeMigration := λ revision _ dir name _,
    Normal {| filename := dir +:+ "/" +:+ revision_str revision +:+ "-" +:+ name
                            +:+ ".js";
              info_name := name |};
|}.

(** A database that answers [meta] to the creation of [SequelizeMeta],
    [rows] to the first query and [srows] to the second. *)
Definition demo_host (meta : Settled unit) (rows : list MetaRow)
    (srows : list (StateRow (list string))) : Host (list string) := {|
  cwd := "/app";
  path_join := λ a b, a +:+ "/" +:+ b;
  now := "20240301120000";
  beautify := λ s, s;
  JSON_stringify := λ st, "{" +:+ join "," (cur_tables _ st) +:+ "}";
  createTable := λ table,
    if bool_decide (table = "SequelizeMeta") then meta else Resolved tt;
  select_name := λ _, Resolved rows;
  select_state := λ _, Resolved srows;
  delete_where := λ _, Resolved tt;
  bulkInsert := λ _ _, Resolved tt;
|}.

Definition demo_options (preview : bool) (reset_state : option string) : Options := {|
  opt_preview := preview;
  opt_name := None;
  opt_comment := None;
  opt_execute := false;
  opt_migrations_path := None;
  opt_models_path := None;
  opt_verbose := false;
  opt_debug := false;
  opt_keep_files := false;
  opt_help := false;
  opt_reset_state := reset_state;
|}.

(** One migration was executed, and its saved state has the table [Users]. *)
Definition demo_rows : list MetaRow := [ {| row_name := "20240101000000-init" |} ].
Definition demo_srows : list (StateRow (list string)) :=
  [ {| row_state := {| tables := ["Users"] |} |} ].

(** The project with [--execute], and with a [pruneOldMigFiles] that is
    rejected. *)
Definition demo_execute_options : Options := {|
  opt_preview := false;
  opt_name := Some "add-posts";
  opt_comment := None;
  opt_execute := true;
  opt_migrations_path := None;
  opt_models_path := None;
  opt_verbose := true;
  opt_debug := false;
  opt_keep_files := false;
  opt_help := false;
  opt_reset_state := None;
|}.

Definition demo_migrate_no_prune (models : list string)
    : Migrate (list string) string := {|
  reverseModels := reverseModels _ _ (demo_migrate models);
  parseDifference := parseDifference _ _ (demo_migrate models);
  sortActions := sortActions _ _ (demo_migrate models);
  getMigration := getMigration _ _ (demo_migrate models);
  pruneOldMigFiles := λ _ _ _, Rejected (ExternalError "EACCES");
  writeMigration := writeMigration _ _ (demo_migrate models);
|}.

Definition demo_run (models : list string) (meta : Settled unit)
    (rows : list MetaRow) (srows : list (StateRow (list string)))
    (preview : bool) (reset_state : option string) : Run :=
  main (demo_migrate models) (demo_host meta rows srows)
    (demo_options preview reset_state) [].

(** ** The script on the small project *)

(** The models match the saved state and [--reset-state] is not given: the
    hypotheses of [no_changes_reported] hold and the run reports no
    changes. *)
Lemma no_changes_reported_witness :
  demo_run ["Users"] (Resolved tt) demo_rows demo_srows false None
    = (first_calls ++ [state_call demo_rows; ConsoleLog "No changes found"],
       Exited 0)
  ∧ run_sat (λ ev, persists ev = false)
      (demo_run ["Users"] (Resolved tt) demo_rows demo_srows false None).
Proof.
  apply (no_changes_reported (list string) string (demo_migrate ["Users"])
           (demo_host (Resolved tt) demo_rows demo_srows)
           (demo_options false None) [] demo_rows demo_srows ["Users"]
           {| commandsUp := []; commandsDown := []; consoleOut := [] |}).
  - repeat split; reflexivity.
  - reflexivity.
  - reflexivity.
Defined.

(** With [--reset-state], a project without models and one executed
    migration: the forward command sequence is empty, and the run prunes the
    migration files, deletes the state rows from the revision on and inserts
    a new one.  [No changes found] is not logged. *)
Lemma empty_diff_under_reset_state_saves :
  assemble (demo_migrate []) [] []
    = Normal {| commandsUp := []; commandsDown := []; consoleOut := [] |}
  ∧ demo_run [] (Resolved tt) demo_rows demo_srows false (Some "true")
    = (first_calls ++
       [ state_call demo_rows;
         Invoke (PruneOldMigFiles (RevOf "20240101000000") "/app/migrations");
         Invoke (SequelizeQuery
                   (sql_delete_states ">=" (RevOf "20240101000000")) DELETE);
         Invoke (BulkInsert "SequelizeMetaMigrations"
                   [ {| rec_revision := RevOf "20240101000000";
                        rec_name := "20240101000000-init";
                        rec_state := "{}" |} ]);
         ConsoleLog "Reset state to latest migration of '20240101000000-init' has been successfull" ],
       Exited 0)
  ∧ existsb persists
      (demo_run [] (Resolved tt) demo_rows demo_srows false (Some "true")).1
    = true.
Proof. by vm_compute. Qed.

(** With [--preview] and the table [Posts] added to the models, the
    hypothesis of [preview_persists_nothing] holds: nothing is saved, and
    the change log and both command sequences are printed. *)
Lemma preview_persists_nothing_witness :
  run_sat (λ ev, persists ev = false)
    (demo_run ["Users"; "Posts"] (Resolved tt) demo_rows demo_srows true None)
  ∧ demo_run ["Users"; "Posts"] (Resolved tt) demo_rows demo_srows true None
    = (first_calls ++
       [ state_call demo_rows;
         ConsoleLog "[Actions] createTable Posts";
         ConsoleLog "Migration result:";
         ConsoleLog ("[ " +:+ nl +:+ "createTable Posts " +:+ nl +:+ "];" +:+ nl);
         ConsoleLog "Undo commands:";
         ConsoleLog ("[ " +:+ nl +:+ "dropTable Posts " +:+ nl +:+ "];" +:+ nl) ],
       Exited 0).
Proof.
  destruct (preview_persists_nothing (list string) string
              (demo_migrate ["Users"; "Posts"])
              (demo_host (Resolved tt) demo_rows demo_srows)
              (demo_options true None) [] eq_refl) as [Hquiet Hshown].
  split; [exact Hquiet |].
  apply (Hshown demo_rows demo_srows ["Users"; "Posts"]
           {| commandsUp := ["createTable Posts"];
              commandsDown := ["dropTable Posts"];
              consoleOut := ["createTable Posts"] |}).
  - repeat split; reflexivity.
  - right. intros [=].
Defined.

(** With [--preview] and models that match the saved state, the run is
    ended by the report of no changes: neither command sequence is
    printed. *)
Lemma preview_without_changes_prints_no_commands :
  demo_run ["Users"] (Resolved tt) demo_rows demo_srows true None
    = (first_calls ++ [state_call demo_rows; ConsoleLog "No changes found"],
       Exited 0)
  ∧ existsb (λ ev, logs "Migration result:" ev || logs "Undo commands:" ev)
      (demo_run ["Users"] (Resolved tt) demo_rows demo_srows true None).1
    = false.
Proof. by vm_compute. Qed.

(** The creation of [SequelizeMeta] is rejected and [--debug] is not
    given: the hypotheses of [rejection_swallowed] hold. *)
Lemma rejection_swallowed_witness :
  (demo_run ["Users"] (Rejected (ExternalError "connection refused"))
     demo_rows demo_srows false None).2 = Drained
  ∧ run_sat (λ ev, error_output ev = false)
      (demo_run ["Users"] (Rejected (ExternalError "connection refused"))
         demo_rows demo_srows false None).
Proof.
  apply (rejection_swallowed (list string) string (demo_migrate ["Users"])
           (demo_host (Rejected (ExternalError "connection refused"))
              demo_rows demo_srows)
           (demo_options false None) []
           (CreateTable "SequelizeMeta") (ExternalError "connection refused")).
  - reflexivity.
  - reflexivity.
  - right. left. reflexivity.
Defined.

(** A first run: nothing was executed and [--reset-state] is not given.
    The revision is the number -1, which is no part of any migration's
    name, and the state asked for is that of revision -1. *)
Lemma first_run_revision_is_minus_one :
  revision_of (head []) = RevNone
  ∧ revision_str (revision_of (head [])) = "-1"
  ∧ demo_run ["Users"] (Resolved tt) [] [] false None
    = (first_calls ++
       [ Invoke (SequelizeQuery (sql_state_of RevNone) SELECT);
         ConsoleLog "[Actions] createTable Users";
         Invoke (PruneOldMigFiles RevNone "/app/migrations");
         WriteMigration (RevOf "20240301120000")
           {| commandsUp := ["createTable Users"];
              commandsDown := ["dropTable Users"];
              consoleOut := ["createTable Users"] |}
           "/app/migrations" "noname" "";
         ConsoleLog "New migration to revision 20240301120000 has been saved to file '/app/migrations/20240301120000-noname.js'";
         Invoke (SequelizeQuery (sql_delete_states ">" RevNone) DELETE);
         Invoke (BulkInsert "SequelizeMetaMigrations"
                   [ {| rec_revision := RevOf "20240301120000";
                        rec_name := "noname";
                        rec_state := "{Users}" |} ]) ],
       Exited 0).
Proof. by vm_compute. Qed.

(** [--reset-state] on a database where nothing was executed: the first
    part of [reset_state_revision] at a concrete run. *)
Lemma reset_state_revision_witness :
  demo_run ["Users"] (Resolved tt) [] [] false (Some "true")
    = (first_calls, Exited 0).
Proof.
  apply (proj1 (reset_state_revision (list string) string
                  (demo_migrate ["Users"]) (demo_host (Resolved tt) [] [])
                  (demo_options false (Some "true")) []) []).
  - repeat split; reflexivity.
  - reflexivity.
  - reflexivity.
Defined.

(** [Posts] is added to the models: the migration assembled from the saved
    tables and the models has the forward commands of that direction and,
    as reverse commands, the forward commands of the opposite one. *)
Lemma migration_artifact_witness :
  ∃ up down,
    pipeline (demo_migrate ["Users"; "Posts"]) ["Users"] ["Users"; "Posts"]
      = Normal up
    ∧ pipeline (demo_migrate ["Users"; "Posts"]) ["Users"; "Posts"] ["Users"]
      = Normal down
    ∧ ["createTable Posts"] = commandsUp up
    ∧ ["dropTable Posts"] = commandsUp down
    ∧ ["createTable Posts"] = consoleOut up.
Proof.
  apply (proj1 (proj1 (migration_artifact (list string) string
                         (demo_migrate ["Users"; "Posts"])
                         (demo_host (Resolved tt) demo_rows demo_srows)
                         (demo_options false None) [])
                  ["Users"] ["Users"; "Posts"]
                  {| commandsUp := ["createTable Posts"];
                     commandsDown := ["dropTable Posts"];
                     consoleOut := ["createTable Posts"] |})).
  reflexivity.
Defined.

(** The run of the project that reports no changes leaves with status 0:
    the hypothesis of [exit_status_zero] holds of it. *)
Lemma exit_status_zero_witness : 0%Z = 0%Z.
Proof.
  apply (exit_status_zero (list string) string (demo_migrate ["Users"])
           (demo_host (Resolved tt) demo_rows demo_srows)
           (demo_options false None) [] 0%Z).
  reflexivity.
Defined.

(** [Posts] is new and [pruneOldMigFiles] is rejected: the run ends with
    the rejection unhandled. *)
Lemma prune_rejection_is_unhandled_witness :
  (main (demo_migrate_no_prune ["Users"; "Posts"])
     (demo_host (Resolved tt) demo_rows demo_srows)
     (demo_options false None) []).2
  = Unhandled (ExternalError "EACCES").
Proof.
  apply (prune_rejection_is_unhandled (list string) string
           (demo_migrate_no_prune ["Users"; "Posts"])
           (demo_host (Resolved tt) demo_rows demo_srows)
           (demo_options false None) [] demo_rows demo_srows ["Users"; "Posts"]
           {| commandsUp := ["createTable Posts"];
              commandsDown := ["dropTable Posts"];
              consoleOut := ["createTable Posts"] |}).
  - repeat split; reflexivity.
  - reflexivity.
  - right. intros [=].
  - reflexivity.
Defined.

(** [Posts] is new and every call succeeds: the migration is written and
    the new state saved. *)
Lemma changes_are_saved_witness :
  demo_run ["Users"; "Posts"] (Resolved tt) demo_rows demo_srows false None
  = (first_calls ++
     [ state_call demo_rows;
       ConsoleLog "[Actions] createTable Posts";
       Invoke (PruneOldMigFiles (RevOf "20240101000000") "/app/migrations");
       WriteMigration (RevOf "20240301120000")
         {| commandsUp := ["createTable Posts"];
            commandsDown := ["dropTable Posts"];
            consoleOut := ["createTable Posts"] |}
         "/app/migrations" "noname" "";
       ConsoleLog "New migration to revision 20240301120000 has been saved to file '/app/migrations/20240301120000-noname.js'";
       Invoke (SequelizeQuery
                 (sql_delete_states ">" (RevOf "20240101000000")) DELETE);
       Invoke (BulkInsert "SequelizeMetaMigrations"
                 [ {| rec_revision := RevOf "20240301120000";
                      rec_name := "noname";
                      rec_state := "{Users,Posts}" |} ]) ],
     Exited 0).
Proof.
  apply (changes_are_saved (list string) string
           (demo_migrate ["Users"; "Posts"])
           (demo_host (Resolved tt) demo_rows demo_srows)
           (demo_options false None) [] demo_rows demo_srows ["Users"; "Posts"]
           {| commandsUp := ["createTable Posts"];
              commandsDown := ["dropTable Posts"];
              consoleOut := ["createTable Posts"] |}
           {| filename := "/app/migrations/20240301120000-noname.js";
              info_name := "noname" |}).
  - repeat split; reflexivity.
  - reflexivity.
  - reflexivity.
  - reflexivity.
  - intros [=].
  - reflexivity.
  - reflexivity.
  - reflexivity.
  - reflexivity.
Defined.

(** ** The script on runs that fail, on [--help] and on [--reset-state] *)

(** The project's library with a [reverseModels] that answers [models]
    and a [writeMigration] that throws [write_error] when one is given. *)
Definition demo_migrate_failing (models : Completion (list string))
    (write_error : option Exn) : Migrate (list string) string := {|
  reverseModels := models;
  parseDifference := parseDifference _ _ (demo_migrate []);
  sortActions := sortActions _ _ (demo_migrate []);
  getMigration := getMigration _ _ (demo_migrate []);
  pruneOldMigFiles := pruneOldMigFiles _ _ (demo_migrate []);
  writeMigration := λ revision m dir name comment,
    match write_error with
    | Some e => Throw e
    | None => writeMigration _ _ (demo_migrate []) revision m dir name comment
    end;
|}.

(** The project's database, one migration executed, with a DELETE and a
    bulk insert that answer [deleted] and [inserted]. *)
Definition demo_host_saving (deleted inserted : Settled unit)
    : Host (list string) := {|
  cwd := "/app";
  path_join := λ a b, a +:+ "/" +:+ b;
  now := "20240301120000";
  beautify := λ s, s;
  JSON_stringify := λ st, "{" +:+ join "," (cur_tables _ st) +:+ "}";
  createTable := λ _, Resolved tt;
  select_name := λ _, Resolved demo_rows;
  select_state := λ _, Resolved demo_srows;
  delete_where := λ _, deleted;
  bulkInsert := λ _ _, inserted;
|}.

Definition demo_flags (help debug : bool) : Options := {|
  opt_preview := false;
  opt_name := None;
  opt_comment := None;
  opt_execute := false;
  opt_migrations_path := None;
  opt_models_path := None;
  opt_verbose := false;
  opt_debug := debug;
  opt_keep_files := false;
  opt_help := help;
  opt_reset_state := None;
|}.

(** The migration that adds [Posts] to the saved state. *)
Definition demo_add_posts : Migration :=
  {| commandsUp := ["createTable Posts"];
     commandsDown := ["dropTable Posts"];
     consoleOut := ["createTable Posts"] |}.

(** With [--help] the project is not looked at. *)
Lemma help_prints_usage_only_witness :
  main (demo_migrate ["Users"]) (demo_host (Resolved tt) demo_rows demo_srows)
    (demo_flags true false) []
  = (ConsoleLog ("Sequelize migration creation tool" +:+ nl +:+ nl +:+ "Usage:")
       :: ((λ option, ConsoleLog (usage_line option)) <$> optionDefinitions),
     Exited 0)
  ∧ kinds (main (demo_migrate ["Users"])
             (demo_host (Resolved tt) demo_rows demo_srows)
             (demo_flags true false) []).1 = [].
Proof.
  apply (help_prints_usage_only (list string) string (demo_migrate ["Users"])
           (demo_host (Resolved tt) demo_rows demo_srows)
           (demo_flags true false) []).
  reflexivity.
Defined.

(** With [--debug], the rejected creation of [SequelizeMeta] is the last
    call of the run and its reason the last thing printed. *)
Lemma rejection_is_reported_last_witness :
  (main (demo_migrate ["Users"])
     (demo_host (Rejected (ExternalError "connection refused"))
        demo_rows demo_srows)
     (demo_flags false true) []).2 = Drained
  ∧ ∃ tr,
      (main (demo_migrate ["Users"])
         (demo_host (Rejected (ExternalError "connection refused"))
            demo_rows demo_srows)
         (demo_flags false true) []).1
      = tr ++ [ Rejection (CreateTable "SequelizeMeta")
                  (ExternalError "connection refused");
                ConsoleError (ExternalError "connection refused") ].
Proof.
  apply (rejection_is_reported_last (list string) string
           (demo_migrate ["Users"])
           (demo_host (Rejected (ExternalError "connection refused"))
              demo_rows demo_srows)
           (demo_flags false true) []
           (CreateTable "SequelizeMeta") (ExternalError "connection refused")).
  - reflexivity.
  - right. left. reflexivity.
Defined.

(** The same run: the error is printed with [--debug], once and last. *)
Lemma error_is_printed_last_witness :
  opt_debug (demo_flags false true) = true
  ∧ (main (demo_migrate ["Users"])
       (demo_host (Rejected (ExternalError "connection refused"))
          demo_rows demo_srows)
       (demo_flags false true) []).2 = Drained
  ∧ ∃ tr,
      (main (demo_migrate ["Users"])
         (demo_host (Rejected (ExternalError "connection refused"))
            demo_rows demo_srows)
         (demo_flags false true) []).1
      = tr ++ [ConsoleError (ExternalError "connection refused")]
      ∧ Forall (λ ev, error_output ev = false) tr.
Proof.
  apply (error_is_printed_last (list string) string
           (demo_migrate ["Users"])
           (demo_host (Rejected (ExternalError "connection refused"))
              demo_rows demo_srows)
           (demo_flags false true) []
           (ExternalError "connection refused")).
  right. right. left. reflexivity.
Defined.

(** The same run ends without leaving the process, and its cause is the
    rejected creation of [SequelizeMeta]. *)
Lemma silent_end_has_a_cause_witness :
  ((∃ c e, chain_step c = true
           ∧ In (Rejection c e)
               (main (demo_migrate ["Users"])
                  (demo_host (Rejected (ExternalError "connection refused"))
                     demo_rows demo_srows)
                  (demo_flags false true) []).1)
   ∨ (∃ e, reverseModels _ _ (demo_migrate ["Users"]) = Throw e)
   ∨ (∃ rows srows current e,
        Resolved demo_rows = Resolved rows ∧
        Resolved demo_srows = Resolved srows ∧
        reverseModels _ _ (demo_migrate ["Users"]) = Normal current ∧
        assemble (demo_migrate ["Users"])
          (previous_tables _ (demo_flags false true) [] (head srows)) current
        = Throw e)
   ∨ (opt_execute (demo_flags false true) = true
      ∧ kinds (main (demo_migrate ["Users"])
                 (demo_host (Rejected (ExternalError "connection refused"))
                    demo_rows demo_srows)
                 (demo_flags false true) []).1
        = plan (demo_flags false true)))
  ∧ (opt_debug (demo_flags false true) = true →
     ∃ e, last (main (demo_migrate ["Users"])
                  (demo_host (Rejected (ExternalError "connection refused"))
                     demo_rows demo_srows)
                  (demo_flags false true) []).1
          = Some (ConsoleError e)).
Proof.
  apply (silent_end_has_a_cause (list string) string
           (demo_migrate ["Users"])
           (demo_host (Rejected (ExternalError "connection refused"))
              demo_rows demo_srows)
           (demo_flags false true) []).
  reflexivity.
Defined.


(** [Posts] is new and every call succeeds: the row inserted has the
    revision and the name of the migration written. *)
Lemma saved_row_matches_migration_witness :
  ∃ rows current name,
    Resolved demo_rows = Resolved rows ∧
    Normal ["Users"; "Posts"] = Normal current ∧
    "SequelizeMetaMigrations" = "SequelizeMetaMigrations" ∧
    [ {| rec_revision := RevOf "20240301120000";
         rec_name := "noname";
         rec_state := "{Users,Posts}" |} ]
    = [ {| rec_revision :=
             current_revision _ (demo_host (Resolved tt) demo_rows demo_srows)
               (demo_options false None) (revision_of (head rows));
           rec_name := name;
           rec_state := "{" +:+ join "," current +:+ "}" |} ] ∧
    (truthy (opt_reset_state (demo_options false None)) = true →
       (∃ row, head rows = Some row ∧ name = row_name row)
       ∧ KWrite ∉ kinds (demo_run ["Users"; "Posts"] (Resolved tt)
                           demo_rows demo_srows false None).1) ∧
    (truthy (opt_reset_state (demo_options false None)) = false →
       ∃ m info,
         In (WriteMigration
               (current_revision _ (demo_host (Resolved tt) demo_rows demo_srows)
                  (demo_options false None) (revision_of (head rows)))
               m "/app/migrations" "noname" "")
           (demo_run ["Users"; "Posts"] (Resolved tt)
              demo_rows demo_srows false None).1 ∧
         writeMigration _ _ (demo_migrate ["Users"; "Posts"])
           (current_revision _ (demo_host (Resolved tt) demo_rows demo_srows)
              (demo_options false None) (revision_of (head rows)))
           m "/app/migrations" "noname" "" = Normal info ∧
         name = info_name info).
Proof.
  apply (saved_row_matches_migration (list string) string
           (demo_migrate ["Users"; "Posts"])
           (demo_host (Resolved tt) demo_rows demo_srows)
           (demo_options false None) []
           "SequelizeMetaMigrations"
           [ {| rec_revision := RevOf "20240301120000";
                rec_name := "noname";
                rec_state := "{Users,Posts}" |} ]).
  vm_compute. tauto.
Defined.

(** The models cannot be read: the run ends after the second query, and
    the error is printed since [--debug] is given. *)
Lemma comparison_error_is_swallowed_witness :
  main (demo_migrate_failing (Throw (TypeError "Unknown type")) None)
    (demo_host (Resolved tt) demo_rows demo_srows) (demo_flags false true) []
  = (first_calls ++
     [ state_call demo_rows; ConsoleError (TypeError "Unknown type") ],
     Drained).
Proof.
  apply (comparison_error_is_swallowed (list string) string
           (demo_migrate_failing (Throw (TypeError "Unknown type")) None)
           (demo_host (Resolved tt) demo_rows demo_srows)
           (demo_flags false true) [] demo_rows demo_srows
           (TypeError "Unknown type")).
  - repeat split; reflexivity.
  - intros [=].
  - reflexivity.
  - left. reflexivity.
Defined.

(** [Posts] is new and the migration cannot be written: the run ends with
    the error unhandled, and no state row is deleted or inserted. *)
Lemma write_error_is_unhandled_witness :
  main (demo_migrate_failing (Normal ["Users"; "Posts"])
          (Some (ExternalError "EROFS")))
    (demo_host (Resolved tt) demo_rows demo_srows) (demo_options false None) []
  = (first_calls ++
     [ state_call demo_rows;
       ConsoleLog "[Actions] createTable Posts";
       Invoke (PruneOldMigFiles (RevOf "20240101000000") "/app/migrations");
       WriteMigration (RevOf "20240301120000") demo_add_posts
         "/app/migrations" "noname" "" ],
     Unhandled (ExternalError "EROFS")).
Proof.
  apply (write_error_is_unhandled (list string) string
           (demo_migrate_failing (Normal ["Users"; "Posts"])
              (Some (ExternalError "EROFS")))
           (demo_host (Resolved tt) demo_rows demo_srows)
           (demo_options false None) [] demo_rows demo_srows ["Users"; "Posts"]
           demo_add_posts (ExternalError "EROFS")).
  - repeat split; reflexivity.
  - reflexivity.
  - reflexivity.
  - intros [=].
  - reflexivity.
  - reflexivity.
Defined.

(** [Posts] is new; the DELETE is rejected in one database, the bulk
    insert in the other.  Either way the migration has been written and no
    state row is saved for it. *)
Lemma rejected_save_leaves_migration_written_witness :
  main (demo_migrate ["Users"; "Posts"])
    (demo_host_saving (Rejected (ExternalError "deadlock")) (Resolved tt))
    (demo_options false None) []
  = (first_calls ++
     [ state_call demo_rows;
       ConsoleLog "[Actions] createTable Posts";
       Invoke (PruneOldMigFiles (RevOf "20240101000000") "/app/migrations");
       WriteMigration (RevOf "20240301120000") demo_add_posts
         "/app/migrations" "noname" "";
       ConsoleLog "New migration to revision 20240301120000 has been saved to file '/app/migrations/20240301120000-noname.js'";
       Invoke (SequelizeQuery
                 (sql_delete_states ">" (RevOf "20240101000000")) DELETE);
       Rejection (SequelizeQuery
                    (sql_delete_states ">" (RevOf "20240101000000")) DELETE)
         (ExternalError "deadlock") ],
     Drained)
  ∧ main (demo_migrate ["Users"; "Posts"])
      (demo_host_saving (Resolved tt) (Rejected (ExternalError "disk full")))
      (demo_options false None) []
    = (first_calls ++
       [ state_call demo_rows;
         ConsoleLog "[Actions] createTable Posts";
         Invoke (PruneOldMigFiles (RevOf "20240101000000") "/app/migrations");
         WriteMigration (RevOf "20240301120000") demo_add_posts
           "/app/migrations" "noname" "";
         ConsoleLog "New migration to revision 20240301120000 has been saved to file '/app/migrations/20240301120000-noname.js'";
         Invoke (SequelizeQuery
                   (sql_delete_states ">" (RevOf "20240101000000")) DELETE);
         Invoke (BulkInsert "SequelizeMetaMigrations"
                   [ {| rec_revision := RevOf "20240301120000";
                        rec_name := "noname";
                        rec_state := "{Users,Posts}" |} ]);
         Rejection (BulkInsert "SequelizeMetaMigrations"
                      [ {| rec_revision := RevOf "20240301120000";
                           rec_name := "noname";
                           rec_state := "{Users,Posts}" |} ])
           (ExternalError "disk full") ],
       Drained).
Proof.
  split.
  - apply (proj1 (rejected_save_leaves_migration_written (list string) string
                    (demo_migrate ["Users"; "Posts"])
                    (demo_host_saving (Rejected (ExternalError "deadlock"))
                       (Resolved tt))
                    (demo_options false None) [] demo_rows demo_srows
                    ["Users"; "Posts"] demo_add_posts
                    {| filename := "/app/migrations/20240301120000-noname.js";
                       info_name := "noname" |}
                    (ExternalError "deadlock")
                    ltac:(repeat split; reflexivity) eq_refl eq_refl
                    ltac:(intros [=]) eq_refl eq_refl)).
    reflexivity.
  - apply (proj2 (rejected_save_leaves_migration_written (list string) string
                    (demo_migrate ["Users"; "Posts"])
                    (demo_host_saving (Resolved tt)
                       (Rejected (ExternalError "disk full")))
                    (demo_options false None) [] demo_rows demo_srows
                    ["Users"; "Posts"] demo_add_posts
                    {| filename := "/app/migrations/20240301120000-noname.js";
                       info_name := "noname" |}
                    (ExternalError "disk full")
                    ltac:(repeat split; reflexivity) eq_refl eq_refl
                    ltac:(intros [=]) eq_refl eq_refl)).
    + reflexivity.
    + reflexivity.
Defined.

(** [--reset-state] on the project, whose models have the table [Users],
    without [--preview] and [--execute]: the state is saved under the
    revision and the name of the migration executed last, no migration is
    written, and the run leaves with status 0. *)
Lemma reset_state_is_saved_witness :
  revision_of (head demo_rows) = RevOf "20240101000000"
  ∧ assemble (demo_migrate ["Users"]) [] ["Users"]
    = Normal {| commandsUp := ["createTable Users"];
                commandsDown := ["dropTable Users"];
                consoleOut := ["createTable Users"] |}
  ∧ demo_run ["Users"] (Resolved tt) demo_rows demo_srows false (Some "true")
    = (first_calls ++
       [ state_call demo_rows;
         ConsoleLog "[Actions] createTable Users";
         Invoke (PruneOldMigFiles (RevOf "20240101000000") "/app/migrations");
         Invoke (SequelizeQuery
                   (sql_delete_states ">=" (RevOf "20240101000000")) DELETE);
         Invoke (BulkInsert "SequelizeMetaMigrations"
                   [ {| rec_revision := RevOf "20240101000000";
                        rec_name := "20240101000000-init";
                        rec_state := "{Users}" |} ]);
         ConsoleLog "Reset state to latest migration of '20240101000000-init' has been successfull" ],
       Exited 0).
Proof.
  apply (reset_state_is_saved (list string) string (demo_migrate ["Users"])
           (demo_host (Resolved tt) demo_rows demo_srows)
           (demo_options false (Some "true")) [] demo_rows demo_srows ["Users"]
           {| commandsUp := ["createTable Users"];
              commandsDown := ["dropTable Users"];
              consoleOut := ["createTable Users"] |}
           {| row_name := "20240101000000-init" |}).
  - repeat split; try reflexivity. intros [=].
  - reflexivity.
  - reflexivity.
  - reflexivity.
  - reflexivity.
  - reflexivity.
  - reflexivity.
Defined.

(** [Posts] is new, [--execute] and [--verbose] are given and every call
    succeeds: the state is saved, the hint is not printed and the run ends
    without leaving the process. *)
Lemma execute_hint_is_never_printed_witness :
  main (demo_migrate ["Users"; "Posts"])
    (demo_host (Resolved tt) demo_rows demo_srows) demo_execute_options []
  = (first_calls ++
     [ state_call demo_rows;
       ConsoleLog "[Actions] createTable Posts";
       Invoke (PruneOldMigFiles (RevOf "20240101000000") "/app/migrations");
       WriteMigration (RevOf "20240301120000") demo_add_posts
         "/app/migrations" "add-posts" "";
       ConsoleLog "New migration to revision 20240301120000 has been saved to file '/app/migrations/20240301120000-add-posts.js'";
       Invoke (SequelizeQuery
                 (sql_delete_states ">" (RevOf "20240101000000")) DELETE);
       Invoke (BulkInsert "SequelizeMetaMigrations"
                 [ {| rec_revision := RevOf "20240301120000";
                      rec_name := "add-posts";
                      rec_state := "{Users,Posts}" |} ]);
       ConsoleLog "Updated state on DB." ],
     Drained).
Proof.
  apply (execute_hint_is_never_printed (list string) string
           (demo_migrate ["Users"; "Posts"])
           (demo_host (Resolved tt) demo_rows demo_srows)
           demo_execute_options [] demo_rows demo_srows ["Users"; "Posts"]
           demo_add_posts
           {| filename := "/app/migrations/20240301120000-add-posts.js";
              info_name := "add-posts" |}).
  - repeat split; reflexivity.
  - reflexivity.
  - reflexivity.
  - reflexivity.
  - intros [=].
  - reflexivity.
  - reflexivity.
  - reflexivity.
  - reflexivity.
Defined.

(** The models match the saved state: the run leaves the process on the
    report of no changes. *)
Lemma exit_has_a_reason_witness :
  opt_help (demo_options false None) = true
  ∨ (truthy (opt_reset_state (demo_options false None)) = true
     ∧ (demo_run ["Users"] (Resolved tt) demo_rows demo_srows false None).1
       = first_calls)
  ∨ (truthy (opt_reset_state (demo_options false None)) = false
     ∧ last (demo_run ["Users"] (Resolved tt) demo_rows demo_srows false None).1
       = Some (ConsoleLog "No changes found")
     ∧ kinds (demo_run ["Users"] (Resolved tt) demo_rows demo_srows false None).1
       = [KCreateTable; KCreateTable; KSelect; KSelect])
  ∨ (opt_execute (demo_options false None) = false
     ∨ opt_preview (demo_options false None) = true)
    ∧ kinds (demo_run ["Users"] (Resolved tt) demo_rows demo_srows false None).1
      = plan (demo_options false None).
Proof.
  apply (exit_has_a_reason (list string) string (demo_migrate ["Users"])
           (demo_host (Resolved tt) demo_rows demo_srows)
           (demo_options false None) [] 0%Z).
  reflexivity.
Defined.

(* ================================================================= *)
(** * Part II.  The diff, sort and generate pipeline of lib/migrate *)
(* ================================================================= *)

(** [lib/migrate] is not among the sources; the script only calls it.  The
    definitions of this part follow the design document: the data model of
    its section 3 and the components of its section 4. *)

Module Pipeline.

(** ** Data model *)

(** Modelled from the spec: the snapshot data model of section 3, which
    [lib/migrate] (missing) builds in [reverseModels].  A data type is its
    name with its parameters (length, precision, ...). *)
Record DataType := {
  type_name : string;
  type_params : list nat;
}.

(** Modelled from the spec: a column definition (section 3); built by the
    missing [lib/migrate]. *)
Record ColumnDef := {
  col_type : DataType;
  col_allowNull : bool;
  col_default : option string;
  col_primaryKey : bool;
  col_unique : bool;
  col_autoIncrement : bool;
}.

(** Modelled from the spec: an index definition (section 3); built by the
    missing [lib/migrate]. *)
Record IndexDef := {
  idx_columns : list string;
  idx_unique : bool;
  idx_type : option string;
}.

(** Modelled from the spec: a foreign-key definition (section 3); built by
    the missing [lib/migrate]. *)
Record ForeignKeyDef := {
  fk_columns : list string;
  fk_table : string;
  fk_ref_columns : list string;
  fk_onUpdate : string;
  fk_onDelete : string;
}.

(** Modelled from the spec: a table definition, three mappings by name
    (sections 3 and 6); the table's own name is its key in the snapshot.
    Built by the missing [lib/migrate]. *)
Record TableDef := {
  columns : gmap string ColumnDef;
  indexes : gmap string IndexDef;
  foreignKeys : gmap string ForeignKeyDef;
}.

(** A snapshot maps table names to table definitions. *)
Abbreviation Snapshot := (gmap string TableDef).

#[global] Instance DataType_eq_dec : EqDecision DataType.
Proof. solve_decision. Defined.
#[global] Instance ColumnDef_eq_dec : EqDecision ColumnDef.
Proof. solve_decision. Defined.
#[global] Instance IndexDef_eq_dec : EqDecision IndexDef.
Proof. solve_decision. Defined.
#[global] Instance ForeignKeyDef_eq_dec : EqDecision ForeignKeyDef.
Proof. solve_decision. Defined.
#[global] Instance TableDef_eq_dec : EqDecision TableDef.
Proof. solve_decision. Defined.

(** Modelled from the spec: the actions of section 3, produced by the
    missing [parseDifference].  Every action names its target table and the
    entry it acts on; additions carry the new definition, removals the
    definition removed, [changeColumn] both, so that an action can be
    rendered and inverted on its own. *)
Inductive Action :=
| createTable (T : string) (def : TableDef)
| dropTable (T : string) (def : TableDef)
| addColumn (T c : string) (def : ColumnDef)
| removeColumn (T c : string) (def : ColumnDef)
| changeColumn (T c : string) (old new : ColumnDef)
| addIndex (T i : string) (def : IndexDef)
| removeIndex (T i : string) (def : IndexDef)
| addForeignKey (T k : string) (def : ForeignKeyDef)
| removeForeignKey (T k : string) (def : ForeignKeyDef).

#[global] Instance Action_eq_dec : EqDecision Action.
Proof. solve_decision. Defined.

(** The table an action targets. *)
Definition target (a : Action) : string :=
  match a with
  | createTable T _ | dropTable T _
  | addColumn T _ _ | removeColumn T _ _ | changeColumn T _ _ _
  | addIndex T _ _ | removeIndex T _ _
  | addForeignKey T _ _ | removeForeignKey T _ _ => T
  end.

(** The name of an action's kind, which is also its statement template. *)
Definition kind (a : Action) : string :=
  match a with
  | createTable _ _ => "createTable"
  | dropTable _ _ => "dropTable"
  | addColumn _ _ _ => "addColumn"
  | removeColumn _ _ _ => "removeColumn"
  | changeColumn _ _ _ _ => "changeColumn"
  | addIndex _ _ _ => "addIndex"
  | removeIndex _ _ _ => "removeIndex"
  | addForeignKey _ _ _ => "addForeignKey"
  | removeForeignKey _ _ _ => "removeForeignKey"
  end.

(** ** DiffEngine *)

Definition str_le (a b : string) : Prop := String.leb a b = true.

#[global] Instance str_le_dec a b : Decision (str_le a b).
Proof. unfold str_le. apply _. Defined.

(** Modelled from the spec: the identity of an index in the comparison of
    the missing [parseDifference], "sorted column list + uniqueness"
    (section 4.1, step 3). *)
Definition index_identity (d : IndexDef) : list string * bool :=
  (merge_sort str_le (idx_columns d), idx_unique d).

(** Modelled from the spec: the identity of a foreign key in the comparison
    of the missing [parseDifference], "source column + referenced table"
    (section 4.1, step 3). *)
Definition fk_identity (d : ForeignKeyDef) : list string * string :=
  (fk_columns d, fk_table d).

(** Modelled from the spec: "present in one snapshot but absent in the
    other" of the missing [parseDifference] (section 4.1): the entries of
    [m1] whose name [m2] does not have, in the order of the names. *)
Definition only_in {V} (m1 m2 : gmap string V) : list (string * V) :=
  filter (λ kv, m2 !! kv.1 = None) (map_to_list m1).

(** Modelled from the spec: presence by identity in the comparison of the
    missing [parseDifference] (section 4.1, step 3): some entry of [m] has
    the identity [id]. *)
Definition known {V I} `{EqDecision I} (identity : V → I) (id : I)
    (m : gmap string V) : bool :=
  existsb (λ kv, bool_decide (identity kv.2 = id)) (map_to_list m).

(** Modelled from the spec: "present only in" one side, by identity, for
    the missing [parseDifference]: the entries of [m1] whose identity no
    entry of [m2] has. *)
Definition unknown_in {V I} `{EqDecision I} (identity : V → I)
    (m1 m2 : gmap string V) : list (string * V) :=
  filter (λ kv, known identity (identity kv.2) m2 = false) (map_to_list m1).

(** Modelled from the spec: step 3 of the missing [parseDifference] on the
    columns of a table present in both snapshots: a column only the target
    has is added, one only the source has is removed, one whose definition
    differs is changed, with both definitions. *)
Definition column_actions (T : string) (src tgt : gmap string ColumnDef)
    : list Action :=
  ((λ kv, addColumn T kv.1 kv.2) <$> only_in tgt src)
  ++ ((λ kv, removeColumn T kv.1 kv.2) <$> only_in src tgt)
  ++ omap (λ kv,
        match src !! kv.1 with
        | Some old =>
            if decide (old = kv.2) then None
            else Some (changeColumn T kv.1 old kv.2)
        | None => None
        end) (map_to_list tgt).

(** Modelled from the spec: the same comparison of the missing
    [parseDifference] on indexes, keyed by their identity. *)
Definition index_actions (T : string) (src tgt : gmap string IndexDef)
    : list Action :=
  ((λ kv, addIndex T kv.1 kv.2) <$> unknown_in index_identity tgt src)
  ++ ((λ kv, removeIndex T kv.1 kv.2) <$> unknown_in index_identity src tgt).

(** Modelled from the spec: the same comparison of the missing
    [parseDifference] on foreign keys, keyed by their identity. *)
Definition fk_actions (T : string) (src tgt : gmap string ForeignKeyDef)
    : list Action :=
  ((λ kv, addForeignKey T kv.1 kv.2) <$> unknown_in fk_identity tgt src)
  ++ ((λ kv, removeForeignKey T kv.1 kv.2) <$> unknown_in fk_identity src tgt).

(** Modelled from the spec: step 3 of the missing [parseDifference] for one
    table present in both snapshots: its columns, its indexes and its
    foreign keys, compared independently. *)
Definition table_actions (T : string) (src tgt : TableDef) : list Action :=
  column_actions T (columns src) (columns tgt)
  ++ index_actions T (indexes src) (indexes tgt)
  ++ fk_actions T (foreignKeys src) (foreignKeys tgt).

(** Modelled from the spec: the deferral rule of the missing
    [parseDifference] (sections 4.1 and 4.2, scenarios 2 and 3): a foreign
    key of a new table stays in its [createTable] when the table it
    references exists already, that is, in the source. *)
Definition embedded (source : Snapshot) (kv : string * ForeignKeyDef) : Prop :=
  is_Some (source !! fk_table kv.2).

(** Modelled from the spec: step 1 of the missing [parseDifference] for one
    new table: one [createTable] with the columns, the indexes and the
    foreign keys to tables that exist; a foreign key to a table that does
    not exist yet is deferred to an [addForeignKey] of its own (sections
    4.1, 4.2 and scenarios 2 and 3). *)
Definition create_actions (source : Snapshot) (T : string) (def : TableDef)
    : list Action :=
  createTable T {| columns := columns def;
                   indexes := indexes def;
                   foreignKeys := filter (embedded source) (foreignKeys def) |}
  :: ((λ kv, addForeignKey T kv.1 kv.2)
        <$> filter (λ kv, ¬ embedded source kv) (map_to_list (foreignKeys def))).

(** Modelled from the spec: [diff] of section 4.1, the missing
    [parseDifference]: the new tables, then the removed tables, then the
    tables present in both, each group in the order of the table names. *)
Definition diff (source target : Snapshot) : list Action :=
  (only_in target source ≫= λ kv, create_actions source kv.1 kv.2)
  ++ ((λ kv, dropTable kv.1 kv.2) <$> only_in source target)
  ++ (map_to_list target ≫= λ kv,
        match source !! kv.1 with
        | Some src => table_actions kv.1 src kv.2
        | None => []
        end).

(** ** ActionSorter *)

(** The kinds that act inside a table and need it created first. *)
Definition needs_table (a : Action) : bool :=
  match a with
  | addColumn _ _ _ | addIndex _ _ _ | addForeignKey _ _ _
  | changeColumn _ _ _ _ | removeColumn _ _ _ | removeIndex _ _ _ => true
  | _ => false
  end.

(** The kinds that detach something before a table is dropped. *)
Definition detaches (a : Action) : bool :=
  match a with
  | removeForeignKey _ _ _ | removeColumn _ _ _ | removeIndex _ _ _ => true
  | _ => false
  end.

(** The table a foreign-key action references. *)
Definition referenced (a : Action) : option string :=
  match a with
  | addForeignKey _ _ fk | removeForeignKey _ _ fk => Some (fk_table fk)
  | _ => None
  end.

(** [a] acts inside table [T] or is an [addForeignKey] that references it. *)
Definition uses_table (a : Action) (T : string) : bool :=
  (needs_table a && bool_decide (target a = T))
  || match a with
     | addForeignKey _ _ fk => bool_decide (fk_table fk = T)
     | _ => false
     end.

(** [b] detaches something of table [T]: a removal that targets [T], or a
    [removeForeignKey] that references it. *)
Definition detaches_from (b : Action) (T : string) : bool :=
  detaches b
  && (bool_decide (target b = T) || bool_decide (referenced b = Some T)).

(** Modelled from the spec: the dependency graph of section 4.2, which the
    missing [sortActions] orders by.  [depends a b]: [a] must come after
    [b].  An action inside table T depends on T's [createTable]; an
    [addForeignKey] that references R depends on R's [createTable]; a
    [dropTable] of T depends on the removals that target T and on the
    [removeForeignKey]s that reference T. *)
Definition depends (a b : Action) : bool :=
  match b with
  | createTable T _ => uses_table a T
  | _ =>
      match a with
      | dropTable T _ => detaches_from b T
      | _ => false
      end
  end.

(** The layer of an action in the graph: tables are created first and
    dropped last. *)
Definition rank (a : Action) : nat :=
  match a with
  | createTable _ _ => 0
  | dropTable _ _ => 2
  | _ => 1
  end.

(** Modelled from the spec: "no remaining unresolved dependency" in the
    missing [sortActions] (section 4.2): no dependency of [a] is left among
    [remaining]. *)
Definition ready (remaining : list Action) (a : Action) : bool :=
  forallb (λ b, negb (depends a b)) remaining.

(** Modelled from the spec: the choice of the missing [sortActions]
    (section 4.2), "the one that appeared earliest in the input order": the
    first action of [l] that is ready, and [l] without it. *)
Fixpoint pick (remaining l : list Action) : option (Action * list Action) :=
  match l with
  | [] => None
  | a :: l' =>
      if ready remaining a then Some (a, l')
      else (λ p : Action * list Action, (p.1, a :: p.2)) <$> pick remaining l'
  end.

Inductive SortResult :=
| Ordered (actions : list Action)
| CyclicDependency (involved : list string).

(** Modelled from the spec: the stable topological sort of section 4.2,
    the missing [sortActions]: among the actions with no unresolved
    dependency, the one that stood earliest in the input comes next; when
    none is ready, the sort fails with the tables involved. *)
Fixpoint sort_steps (fuel : nat) (remaining : list Action) : SortResult :=
  match remaining, fuel with
  | [], _ => Ordered []
  | _, 0 => CyclicDependency (target <$> remaining)
  | _, S fuel' =>
      match pick remaining remaining with
      | None => CyclicDependency (target <$> remaining)
      | Some (a, rest) =>
          match sort_steps fuel' rest with
          | Ordered l => Ordered (a :: l)
          | CyclicDependency involved => CyclicDependency involved
          end
      end
  end.

Definition sort (actions : list Action) : SortResult :=
  sort_steps (length actions) actions.

(** A sequence satisfies dependency order when no action stands before one
    it depends on. *)
Definition dependency_ordered (l : list Action) : Prop :=
  StronglySorted (λ a b, depends a b = false) l.

(** ** MigrationGenerator *)

(** Modelled from the spec: a statement of section 4.3, the template of
    the action's kind with the action's payload as its parameters; what the
    missing [getMigration] renders. *)
Record Statement := {
  template : string;
  parameters : Action;
}.

Record Script := {
  statements : list Statement;
  log : list string;
}.

(** Modelled from the spec: the rendering of the missing [getMigration]
    (section 4.3): the template of the kind, the payload verbatim. *)
Definition render (a : Action) : Statement :=
  {| template := kind a; parameters := a |}.

(** Modelled from the spec: the change-log line of the missing
    [getMigration] (section 4.3), one per action. *)
Definition describe (a : Action) : string :=
  kind a +:+ " " +:+ target a.

(** Modelled from the spec: [generate] of section 4.3, the missing
    [getMigration]: one statement and one log line per action, in order. *)
Definition generate (actions : list Action) : Script :=
  {| statements := render <$> actions; log := describe <$> actions |}.

(** ** The scenarios of the design document *)

(** A table definition with its foreign keys replaced. *)
Definition with_foreignKeys
    (f : gmap string ForeignKeyDef → gmap string ForeignKeyDef)
    (t : TableDef) : TableDef :=
  {| columns := columns t; indexes := indexes t;
     foreignKeys := f (foreignKeys t) |}.

Definition integer : DataType := {| type_name := "integer"; type_params := [] |}.
Definition varchar (n : nat) : DataType :=
  {| type_name := "string"; type_params := [n] |}.

Definition column (t : DataType) (pk : bool) : ColumnDef :=
  {| col_type := t; col_allowNull := negb pk; col_default := None;
     col_primaryKey := pk; col_unique := pk; col_autoIncrement := pk |}.

Definition foreign_key (c R : string) : ForeignKeyDef :=
  {| fk_columns := [c]; fk_table := R; fk_ref_columns := ["id"];
     fk_onUpdate := "CASCADE"; fk_onDelete := "CASCADE" |}.

Definition Users (name_length : nat) : TableDef :=
  {| columns := {[ "id" := column integer true;
                   "name" := column (varchar name_length) false ]};
     indexes := ∅;
     foreignKeys := ∅ |}.

Definition Posts (R : string) : TableDef :=
  {| columns := {[ "id" := column integer true;
                   "title" := column (varchar 255) false;
                   "refId" := column integer false ]};
     indexes := ∅;
     foreignKeys := {[ "posts_ref" := foreign_key "refId" R ]} |}.

Definition Comments : TableDef :=
  {| columns := {[ "id" := column integer true;
                   "postId" := column integer false ]};
     indexes := ∅;
     foreignKeys := {[ "comments_post" := foreign_key "postId" "Posts" ]} |}.

(** The snapshots of the scenarios. *)
Definition only_users : Snapshot := {[ "Users" := Users 255 ]}.
Definition users_and_posts : Snapshot :=
  {[ "Users" := Users 255; "Posts" := Posts "Users" ]}.
Definition posts_and_comments : Snapshot :=
  {[ "Posts" := Posts "Comments"; "Comments" := Comments ]}.

(** ** Properties of the DiffEngine *)

Lemma bind_nil {A B} (f : A → list B) (l : list A) :
  (∀ x, x ∈ l → f x = []) → l ≫= f = [].
Proof.
  induction l as [| x l IH]; intros Hf; [done |]. cbn.
  rewrite (Hf x) by left. apply IH. intros y Hy. apply Hf. by right.
Qed.

Lemma omap_nil {A B} (f : A → option B) (l : list A) :
  (∀ x, x ∈ l → f x = None) → omap f l = [].
Proof.
  induction l as [| x l IH]; intros Hf; [done |]. cbn.
  rewrite (Hf x) by left. apply IH. intros y Hy. apply Hf. by right.
Qed.

Lemma filter_nil_all {A} (P : A → Prop) `{!∀ x, Decision (P x)} (l : list A) :
  (∀ x, x ∈ l → ¬ P x) → filter P l = [].
Proof.
  induction l as [| x l IH]; intros Hf; [done |].
  rewrite filter_cons_False by (apply Hf; left).
  apply IH. intros y Hy. apply Hf. by right.
Qed.

Lemma only_in_self {V} (m : gmap string V) : only_in m m = [].
Proof.
  apply filter_nil_all. intros [k v] Hkv. apply elem_of_map_to_list in Hkv.
  simpl. congruence.
Qed.

Lemma known_true {V I} `{EqDecision I} (identity : V → I) id (m : gmap string V) :
  known identity id m = true ↔ ∃ n d, m !! n = Some d ∧ identity d = id.
Proof.
  unfold known. rewrite existsb_exists. split.
  - intros ([n d] & Hin & Hid). exists n, d.
    apply list_elem_of_In, elem_of_map_to_list in Hin.
    by apply bool_decide_eq_true in Hid.
  - intros (n & d & Hm & Hid). exists (n, d). split.
    + by apply list_elem_of_In, elem_of_map_to_list.
    + by apply bool_decide_eq_true.
Qed.

Lemma unknown_in_self {V I} `{EqDecision I} (identity : V → I)
    (m : gmap string V) :
  unknown_in identity m m = [].
Proof.
  apply filter_nil_all. intros [k v] Hkv. apply elem_of_map_to_list in Hkv.
  simpl. enough (known identity (identity v) m = true) by congruence.
  apply known_true. by exists k, v.
Qed.

Lemma table_actions_self T t : table_actions T t t = [].
Proof.
  unfold table_actions, column_actions, index_actions, fk_actions.
  rewrite !only_in_self, !unknown_in_self. simpl.
  rewrite omap_nil; [done |].
  intros [c d] Hcd. apply elem_of_map_to_list in Hcd. simpl. rewrite Hcd.
  by rewrite decide_True.
Qed.

Lemma diff_self (S : Snapshot) : diff S S = [].
Proof.
  unfold diff. rewrite only_in_self. simpl.
  apply bind_nil. intros [T t] HT. apply elem_of_map_to_list in HT.
  simpl. rewrite HT. apply table_actions_self.
Qed.

(** C2.  The difference of a snapshot with itself is empty, and the
    difference is a function of what the two snapshots hold: snapshots with
    the same tables under the same names give the same actions, however
    they were built. *)
Theorem diff_identity_deterministic :
  (∀ S : Snapshot, diff S S = [])
  ∧ (∀ A A' B B' : Snapshot,
       (∀ T, A !! T = A' !! T) → (∀ T, B !! T = B' !! T) →
       diff A B = diff A' B').
Proof.
  split; [apply diff_self |].
  intros A A' B B' HA HB.
  by rewrite (map_eq A A' HA), (map_eq B B' HB).
Qed.

(** ** Properties of the ActionSorter *)

Lemma depends_irrefl a : depends a a = false.
Proof. by destruct a. Qed.

Lemma depends_rank a b : depends a b = true → rank b < rank a.
Proof. destruct a, b; simpl; intros; try discriminate; lia. Qed.

Lemma ready_spec remaining a :
  ready remaining a = true ↔ ∀ b, b ∈ remaining → depends a b = false.
Proof.
  unfold ready. rewrite forallb_forall. split.
  - intros H b Hb. apply list_elem_of_In, H in Hb. by destruct (depends a b).
  - intros H b Hb. apply list_elem_of_In, H in Hb. by rewrite Hb.
Qed.

Lemma least_rank (l : list Action) :
  l ≠ [] → ∃ a, a ∈ l ∧ ∀ b, b ∈ l → rank a ≤ rank b.
Proof.
  induction l as [| x l IH]; [done |]. intros _.
  destruct l as [| y l].
  - exists x. split; [left |]. by intros b ->%list_elem_of_singleton.
  - destruct IH as (a & Ha & Hmin); [done |].
    destruct (decide (rank x ≤ rank a)) as [Hle | Hgt].
    + exists x. split; [left |].
      intros b [-> | Hb]%elem_of_cons; [done |]. specialize (Hmin b Hb). lia.
    + exists a. split; [by right |].
      intros b [-> | Hb]%elem_of_cons; [lia | by apply Hmin].
Qed.

(** Some action of a non-empty batch is ready: the graph has no cycle. *)
Lemma exists_ready (l : list Action) :
  l ≠ [] → ∃ a, a ∈ l ∧ ready l a = true.
Proof.
  intros Hl. destruct (least_rank l Hl) as (a & Ha & Hmin).
  exists a. split; [done |]. apply ready_spec. intros b Hb.
  destruct (depends a b) eqn:Hdep; [| done].
  apply depends_rank in Hdep. specialize (Hmin b Hb). lia.
Qed.

Lemma pick_Some remaining l a r :
  pick remaining l = Some (a, r) →
  ∃ l1 l2, l = l1 ++ a :: l2 ∧ r = l1 ++ l2 ∧ ready remaining a = true.
Proof.
  revert r. induction l as [| x l IH]; intros r; simpl; [done |].
  destruct (ready remaining x) eqn:Hx.
  - intros [= <- <-]. by exists [], l.
  - destruct (pick remaining l) as [[b r'] |]; simpl; [| done].
    intros [= <- <-]. destruct (IH r' eq_refl) as (l1 & l2 & -> & -> & Hb).
    by exists (x :: l1), l2.
Qed.

Lemma pick_None remaining l :
  pick remaining l = None → ∀ a, a ∈ l → ready remaining a = false.
Proof.
  induction l as [| x l IH]; simpl; [by intros _ a ?%elem_of_nil |].
  destruct (ready remaining x) eqn:Hx; [done |].
  destruct (pick remaining l) as [[b r'] |]; simpl; [done |].
  intros _ a [-> | Ha]%elem_of_cons; [done | by apply IH].
Qed.

Lemma sort_steps_spec fuel remaining :
  length remaining ≤ fuel →
  ∃ l, sort_steps fuel remaining = Ordered l
       ∧ l ≡ₚ remaining ∧ dependency_ordered l.
Proof.
  revert remaining. induction fuel as [| fuel IH]; intros remaining Hlen.
  - destruct remaining; [| simpl in Hlen; lia].
    exists []. split_and!; [done | done | constructor].
  - destruct remaining as [| x rem'].
    { exists []. split_and!; [done | done | constructor]. }
    cbn [sort_steps]. set (remaining := x :: rem') in *.
    destruct (pick remaining remaining) as [[a rest] |] eqn:Hpick.
    + apply pick_Some in Hpick as (l1 & l2 & Hrem & -> & Hready).
      assert (length (l1 ++ l2) ≤ fuel) as Hlen'.
      { apply (f_equal length) in Hrem. rewrite length_app in *.
        simpl in *. lia. }
      destruct (IH _ Hlen') as (l & -> & Hperm & Hord).
      exists (a :: l). split_and!; [done | |].
      * rewrite Hrem, Hperm. by rewrite Permutation_middle.
      * constructor; [done |]. apply Forall_forall. intros b Hb.
        apply ready_spec with (b := b) in Hready; [done |].
        rewrite Hrem, <- Permutation_middle. right. by rewrite <- Hperm.
    + destruct (exists_ready remaining) as (a & Ha & Hready); [done |].
      by rewrite (pick_None _ _ Hpick a Ha) in Hready.
Qed.

(** The sort never fails, and its result is a permutation of the batch in
    dependency order. *)
Lemma sort_spec l :
  ∃ l', sort l = Ordered l' ∧ l' ≡ₚ l ∧ dependency_ordered l'.
Proof. by apply sort_steps_spec. Qed.

Lemma sort_ordered l : dependency_ordered l → sort l = Ordered l.
Proof.
  unfold sort. induction 1 as [| a l Hord IH Ha]; [done |].
  cbn [length sort_steps pick].
  assert (ready (a :: l) a = true) as ->.
  { apply ready_spec. intros b [-> | Hb]%elem_of_cons.
    - apply depends_irrefl.
    - by rewrite Forall_forall in Ha; apply Ha. }
  by rewrite IH.
Qed.


(** C3.  The sort of a batch always succeeds; its result holds the same
    actions as the batch, each as often and with its payload as it was; it
    is in dependency order; sorting it again returns it; and a batch that
    is in dependency order already is returned as it is.  The sort is a
    function: one batch has one result. *)
Theorem sort_permutation_idempotent (l : list Action) :
  ∃ l', sort l = Ordered l'
        ∧ l' ≡ₚ l
        ∧ dependency_ordered l'
        ∧ sort l' = Ordered l'
        ∧ (dependency_ordered l → l' = l)
        ∧ (∀ r, sort l = r → r = Ordered l').
Proof.
  destruct (sort_spec l) as (l' & Hsort & Hperm & Hord).
  exists l'. split_and!; [done | done | done | by apply sort_ordered | |].
  - intros Hl. apply sort_ordered in Hl. congruence.
  - intros r <-. done.
Qed.



(** ** Properties of the MigrationGenerator *)

(** One statement and one log line for each action, in order; a statement
    is the template of its action's kind with the action as it is. *)
Lemma generate_one_to_one (l : list Action) :
  length (statements (generate l)) = length (log (generate l))
  ∧ parameters <$> statements (generate l) = l
  ∧ template <$> statements (generate l) = kind <$> l.
Proof.
  unfold generate. cbn. rewrite !length_fmap. split_and!; [done | |].
  - rewrite <- list_fmap_compose. apply list_fmap_id.
  - by rewrite <- list_fmap_compose.
Qed.

(** ** The scenarios *)

Example scenario_fresh_schema :
  diff ∅ only_users = [createTable "Users" (Users 255)]
  ∧ diff only_users ∅ = [dropTable "Users" (Users 255)].
Proof. by vm_compute. Qed.

Example scenario_embedded_foreign_key :
  sort (diff only_users users_and_posts)
  = Ordered [createTable "Posts" (Posts "Users")].
Proof. by vm_compute. Qed.

Example scenario_cycle :
  sort (diff ∅ posts_and_comments)
  = Ordered
      [ createTable "Comments" (with_foreignKeys (λ _, ∅) Comments);
        createTable "Posts" (with_foreignKeys (λ _, ∅) (Posts "Comments"));
        addForeignKey "Comments" "comments_post" (foreign_key "postId" "Posts");
        addForeignKey "Posts" "posts_ref" (foreign_key "refId" "Comments") ].
Proof. by vm_compute. Qed.

Example scenario_attribute_change :
  diff {[ "Users" := Users 255 ]} {[ "Users" := Users 500 ]}
  = [changeColumn "Users" "name" (column (varchar 255) false)
       (column (varchar 500) false)]
  ∧ diff {[ "Users" := Users 500 ]} {[ "Users" := Users 255 ]}
    = [changeColumn "Users" "name" (column (varchar 500) false)
         (column (varchar 255) false)].
Proof. by vm_compute. Qed.




End Pipeline.
